(** * AutoCodeGuard: the repository analyzer and its language analyzers

    A shallow embedding of [src/repo_analyzer.py] and of the analyzers under
    [src/analyzers/], with the properties of the orchestration core.

    Conventions of the model.
    - A Python [str] is a list of Unicode code points ([N]).
    - External tools are an oracle [subprocess_run]: given the argument
      vector and the working directory it either completes (exit code,
      stdout, stderr) or raises (executable missing, decoding error, ...).
    - The ephemeral directory made by [tempfile.mkdtemp] is the field
      [workspace] of the world: [None] when the directory does not exist,
      [Some t] when it exists with content [t] (regular files and
      directories; symbolic links and permission failures are outside the
      model).
    - The two callbacks append to the [trace] of the world and do not raise. *)

From Stdlib Require Import ZArith NArith Ascii String.
From stdpp Require Import gmap strings list pretty.

Local Open Scope list_scope.
Set Warnings "-register-all".

(** ** Python strings *)

Module PyStr.

Definition char := N.
Definition str := list N.

(** An ASCII literal of the source as a sequence of code points. *)
Definition lit (s : string) : str := map N_of_ascii (list_ascii_of_string s).

(** [s.startswith(pre)] *)
Fixpoint startswith (s pre : str) {struct pre} : bool :=
  match pre, s with
  | [], _ => true
  | _ :: _, [] => false
  | p :: pre', c :: s' => if N.eqb p c then startswith s' pre' else false
  end.

(** [s.endswith(suf)] *)
Definition endswith (s suf : str) : bool := startswith (rev s) (rev suf).

(** [s.count(sub)]: the number of non-overlapping occurrences of [sub],
    scanning from the left; [skip] is the number of characters still covered
    by the last match. For the empty pattern Python answers [len(s) + 1]. *)
Fixpoint count_from (sub : str) (skip : nat) (s : str) : nat :=
  match s with
  | [] => 0
  | _ :: s' =>
      match skip with
      | S k => count_from sub k s'
      | O => if startswith s sub
             then S (count_from sub (length sub - 1) s')
             else count_from sub 0 s'
      end
  end.

Definition count (s sub : str) : nat :=
  match sub with
  | [] => S (length s)
  | _ :: _ => count_from sub 0 s
  end.

(** [c.isspace()] for one code point (Python's Unicode whitespace). *)
Definition isspace (c : char) : bool :=
  ((9 <=? c) && (c <=? 13) || (28 <=? c) && (c <=? 32)
   || (c =? 133) || (c =? 160) || (c =? 5760)
   || (8192 <=? c) && (c <=? 8202)
   || (c =? 8232) || (c =? 8233) || (c =? 8239) || (c =? 8287)
   || (c =? 12288))%N.

Fixpoint lstrip (s : str) : str :=
  match s with
  | [] => []
  | c :: s' => if isspace c then lstrip s' else s
  end.

(** [s.strip()] *)
Definition strip (s : str) : str := rev (lstrip (rev (lstrip s))).

(** The line boundaries of [str.splitlines]. *)
Definition is_linebreak (c : char) : bool :=
  ((c =? 10) || (c =? 13) || (c =? 11) || (c =? 12)
   || (c =? 28) || (c =? 29) || (c =? 30) || (c =? 133)
   || (c =? 8232) || (c =? 8233))%N.

(** [s.splitlines()]: [cur] is the current line, reversed. A carriage return
    followed by a line feed is one boundary; no empty last line is
    produced after a final boundary. *)
Fixpoint splitlines_from (cur : str) (s : str) : list str :=
  match s with
  | [] => match cur with [] => [] | _ :: _ => [rev cur] end
  | c :: s' =>
      if is_linebreak c then
        rev cur ::
          match s' with
          | d :: s'' => if (c =? 13)%N && (d =? 10)%N
                        then splitlines_from [] s''
                        else splitlines_from [] s'
          | [] => splitlines_from [] s'
          end
      else splitlines_from (c :: cur) s'
  end.

Definition splitlines (s : str) : list str := splitlines_from [] s.

(** [sep.join(parts)] *)
Fixpoint join (sep : str) (parts : list str) : str :=
  match parts with
  | [] => []
  | [p] => p
  | p :: ps => p ++ sep ++ join sep ps
  end.

(** All the positions at which [sub] occurs in [s], overlapping or not. *)
Fixpoint occurrences (sub s : str) : nat :=
  match s with
  | [] => 0
  | _ :: s' => (if startswith s sub then 1 else 0) + occurrences sub s'
  end.

(** A pattern no proper non-empty suffix of which is also a prefix. *)
Definition unbordered (sub : str) : bool :=
  forallb (fun j => negb (startswith sub (drop j sub))) (seq 1 (length sub - 1)).

End PyStr.
Import PyStr.

Arguments lit : simpl never.
Arguments count : simpl never.
Arguments strip : simpl never.
Arguments splitlines : simpl never.
Arguments endswith : simpl never.
Arguments join : simpl never.


(** ** The workspace: a directory tree *)

(** A directory holds the names of its regular files and its
    sub-directories, both in the order the operating system lists them. *)
Inductive tree : Type :=
  Node (files : list str) (dirs : list (str * tree)).

(** [os.walk(top)], top-down: the directory itself, then each
    sub-directory in turn. A directory is named by its components below
    the top. *)
Fixpoint walk (root : list str) (t : tree) : list (list str * list str) :=
  match t with
  | Node files dirs =>
      (root, files) ::
        (fix walk_dirs (ds : list (str * tree)) :=
           match ds with
           | [] => []
           | (d, sub) :: ds' => walk (root ++ [d]) sub ++ walk_dirs ds'
           end) dirs
  end.

(** [sum([len(files) for _, _, files in os.walk(temp_dir)])] *)
Definition count_files (w : list (list str * list str)) : nat :=
  sum_list (map (fun e => length (snd e)) w).

Fixpoint lookup_dir (n : str) (dirs : list (str * tree)) : option tree :=
  match dirs with
  | [] => None
  | (d, sub) :: dirs' => if bool_decide (d = n) then Some sub else lookup_dir n dirs'
  end.

Fixpoint update_dir (n : str) (new : tree) (dirs : list (str * tree))
  : list (str * tree) :=
  match dirs with
  | [] => []
  | (d, sub) :: dirs' =>
      if bool_decide (d = n) then (d, new) :: dirs'
      else (d, sub) :: update_dir n new dirs'
  end.

(** Writing a regular file: an existing one is overwritten, a new one is
    created. *)
Definition add_file (n : str) (files : list str) : list str :=
  if bool_decide (n ∈ files) then files else files ++ [n].

(** ** Results, reports, events *)

(** The dictionary an analyzer returns; only the Python and JavaScript
    analyzers set ["rating"]. *)
Record FileResult : Type := mkFileResult {
  file : str;
  issues : str;
  error_count : nat;
  warning_count : nat;
  rating : option str
}.

(** A report maps a language to its results, or ["Error"] to a message. *)
Inductive item : Type :=
| Message (m : str)
| Result (r : FileResult).

Abbreviation report := (gmap string (list item)).

(** What [subprocess.run(..., capture_output=True, text=True)] returns. *)
Record CompletedProcess : Type := mkCompleted {
  returncode : Z;
  stdout : str;
  stderr : str
}.

Inductive run_outcome : Type :=
| Completed (p : CompletedProcess)
| RunRaised (e : str).

Inductive clone_outcome : Type :=
| Cloned (checkout : tree)
| CloneRaised (e : str) (leftover : tree).

Inductive status_msg : Type :=
| CloningComplete
| Analyzing (processed total : nat) (rel_path : str).

Inductive log_msg : Type :=
| LogCloning (repo_url : str)
| LogCloneError (e : str)
| LogSkipConfig (name : str)
| LogProcessing (rel_path : str)
| LogSkipMinified (path : str)
| LogCleaned (temp_dir : str)
| LogStart (lang : string)
| LogCompleted (lang : string) (rel_path : str)
| LogFailed (lang : string) (e : str).

Inductive event : Type :=
| Status (m : status_msg)
| Log (m : log_msg)
| Exec (argv : list str) (cwd : option str).

(** The text handed to [status_callback]. *)
Definition render_status (m : status_msg) : str :=
  match m with
  | CloningComplete => lit "Cloning complete. Starting analysis..."
  | Analyzing processed total rel_path =>
      lit "Analyzing (" ++ lit (pretty processed) ++ lit "/" ++ lit (pretty total)
        ++ lit "): " ++ rel_path
  end.

(** The line an analyzer of [src/analyzers] logs before it runs its tool;
    the JavaScript analyzers log none. *)
Definition start_banner (lang : string) : str :=
  if String.eqb lang "Python" then [128013%N] ++ lit " Running Pylint and Flake8 analysis..."
  else if String.eqb lang "HTML" then [127760%N] ++ lit " Running HTMLHint analysis..."
  else if String.eqb lang "CSS" then [127912%N] ++ lit " Running Stylelint analysis for CSS..."
  else if String.eqb lang "Java" then [9749%N] ++ lit " Running Checkstyle analysis..."
  else [].

(** The text handed to [log_callback] by [repo_analyzer.py] and the
    analyzers of [src/analyzers]. *)
Definition render_log (m : log_msg) : str :=
  match m with
  | LogCloning u => [128269%N] ++ lit " Cloning repository from " ++ u ++ lit "..."
  | LogCloneError e => [10060%N] ++ lit " Clone error: " ++ e
  | LogSkipConfig n => [9888; 65039]%N ++ lit " Skipping linter config file: " ++ n
  | LogProcessing r => [128196%N] ++ lit " Processing " ++ r ++ lit "..."
  | LogSkipMinified r => [9888; 65039]%N ++ lit " Skipping minified file: " ++ r
  | LogCleaned d => [129529%N] ++ lit " Cleaned up temporary directory: " ++ d
  | LogStart lang => start_banner lang
  | LogCompleted lang r =>
      [9989%N] ++ lit " " ++ lit lang ++ lit " analysis completed for " ++ r
  | LogFailed lang e =>
      [10060%N] ++ lit " " ++ lit lang ++ lit " analysis failed: " ++ e
  end.

(** ** The world and the monad of the orchestrator *)

Record world : Type := mkWorld {
  workspace : option tree;
  trace : list event
}.

Inductive outcome (A : Type) : Type :=
| Returned (a : A)
| Raised (e : str).
Arguments Returned {A} a.
Arguments Raised {A} e.

Definition M (A : Type) : Type := world -> outcome A * world.

Definition ret {A} (a : A) : M A := fun w => (Returned a, w).

Definition bind {A B} (m : M A) (k : A -> M B) : M B :=
  fun w =>
    match m w with
    | (Returned a, w') => k a w'
    | (Raised e, w') => (Raised e, w')
    end.

Definition raise {A} (e : str) : M A := fun w => (Raised e, w).

(** [try: body  except Exception as e: handler(str(e))] *)
Definition try_except {A} (body : M A) (handler : str -> M A) : M A :=
  fun w =>
    match body w with
    | (Returned a, w') => (Returned a, w')
    | (Raised e, w') => handler e w'
    end.

Declare Scope py_scope.
Delimit Scope py_scope with py.
Notation "x <- c1 ;; c2" := (bind c1 (fun x => c2))
  (at level 100, c1 at next level, right associativity) : py_scope.
Notation "c1 ;; c2" := (bind c1 (fun _ => c2))
  (at level 100, right associativity) : py_scope.
Local Open Scope py_scope.

Definition emit (e : event) : M unit :=
  fun w => (Returned tt, mkWorld (workspace w) (trace w ++ [e])).

Definition status_callback (m : status_msg) : M unit := emit (Status m).
Definition log_callback (m : log_msg) : M unit := emit (Log m).

(** [for x in l: s = body(x, s)] *)
Fixpoint for_each {A S} (body : A -> S -> M S) (l : list A) (s : S) : M S :=
  match l with
  | [] => ret s
  | x :: l' => s' <- body x s ;; for_each body l' s'
  end.

(** [os.path.join(a, b)] on POSIX. *)
Definition path_join (a b : str) : str :=
  if startswith b (lit "/") then b
  else if bool_decide (a = []) || endswith a (lit "/") then a ++ b
  else a ++ lit "/" ++ b.

(** ** The analyzers and the orchestrator *)

Section Program.

(** The environment of a run. *)
Variable subprocess_run : list str -> option str -> run_outcome.
Variable clone_from : str -> clone_outcome.
Variable getenv : string -> option str.
Variable getcwd : str.
(** The directory name [tempfile.mkdtemp()] answers. *)
Variable temp_dir : str.
(** [os.path.exists] on the configuration files shipped next to
    [repo_analyzer.py] (the directory [config] is not part of the sources). *)
Variable config_exists : str -> bool.

(** [subprocess.run(argv, capture_output=True, text=True, cwd=cwd)] *)
Definition run (argv : list str) (cwd : option str) : M CompletedProcess :=
  emit (Exec argv cwd) ;;
  match subprocess_run argv cwd with
  | Completed p => ret p
  | RunRaised e => raise e
  end.

(** [returncode in [0, 1]] *)
Definition in_0_1 (rc : Z) : bool := (rc =? 0)%Z || (rc =? 1)%Z.

(** The synthetic result of the [except] branches. *)
Definition failure_result (rel_path e : str) (rating : option str) : FileResult :=
  mkFileResult rel_path (lit "Analysis failed: " ++ e) 1 0 rating.

(** [analyzers/python_analyzer.py] *)
Definition analyze_python (file_path rel_path : str) : M FileResult :=
  try_except
    (log_callback (LogStart "Python") ;;
     pylint_result <-
       run [lit "pylint"; lit "--output-format=text"; lit "--rcfile=.pylintrc"; file_path]
           (Some temp_dir) ;;
     let pylint_issues :=
       if in_0_1 (returncode pylint_result)
       then stdout pylint_result else stderr pylint_result in
     let pylint_error_count :=
       count pylint_issues (lit "error") + count pylint_issues (lit "Error") in
     let pylint_warning_count :=
       count pylint_issues (lit "warning") + count pylint_issues (lit "Warning") in
     flake8_result <-
       run [lit "flake8"; lit "--max-line-length=79"; file_path] (Some temp_dir) ;;
     let flake8_issues := strip (stdout flake8_result) in
     let flake8_error_count :=
       match flake8_issues with
       | [] => 0
       | _ :: _ => length (splitlines flake8_issues)
       end in
     let flake8_warning_count := 0 in
     let total_error_count := pylint_error_count + flake8_error_count in
     let total_warning_count := pylint_warning_count + flake8_warning_count in
     let rating :=
       if Nat.eqb total_error_count 0 && Nat.eqb total_warning_count 0
       then lit "Good" else lit "Needs Improvement" in
     let rating := if Nat.ltb 5 total_error_count then lit "Poor" else rating in
     log_callback (LogCompleted "Python" rel_path) ;;
     ret (mkFileResult rel_path
            (lit "Pylint Issues:" ++ [10%N] ++ pylint_issues ++ [10; 10]%N
               ++ lit "Flake8 Issues:" ++ [10%N] ++ flake8_issues)
            total_error_count total_warning_count (Some rating)))
    (fun e =>
       log_callback (LogFailed "Python" e) ;;
       ret (failure_result rel_path e (Some (lit "Error")))).

(** The result both JavaScript analyzers compute from ESLint's output. *)
Definition eslint_result (rel_path : str) (p : CompletedProcess) : FileResult :=
  let eslint_issues := strip (stdout p) in
  let error_count :=
    match eslint_issues with
    | [] => 0
    | _ :: _ => length (splitlines eslint_issues)
    end in
  let warning_count := 0 in
  let rating := if Nat.eqb error_count 0 then lit "Good" else lit "Needs Improvement" in
  let rating := if Nat.ltb 5 error_count then lit "Poor" else rating in
  mkFileResult rel_path eslint_issues error_count warning_count (Some rating).

Definition minified_result (rel_path : str) : FileResult :=
  mkFileResult rel_path (lit "Minified files are skipped.") 0 0 (Some (lit "Good")).

(** [analyze_javascript] of [repo_analyzer.py]: defined after the imports,
    it is the function the name denotes when [analyze_repo] runs. It has no
    [try]. *)
Definition analyze_javascript (file_path rel_path : str) : M FileResult :=
  if endswith file_path (lit ".min.js") then
    log_callback (LogSkipMinified file_path) ;;
    ret (minified_result rel_path)
  else
    eslint <-
      run [lit "npx"; lit "eslint"; lit "--config"; lit "eslintconfig.js";
           lit "--format=stylish"; file_path] (Some temp_dir) ;;
    log_callback (LogCompleted "JavaScript" rel_path) ;;
    ret (eslint_result rel_path eslint).

(** [analyze_javascript] of [analyzers/javascript_analyzer.py]: the same
    body with another command line, and no [try] either. *)
Definition analyze_javascript_module (file_path rel_path : str) : M FileResult :=
  if endswith file_path (lit ".min.js") then
    log_callback (LogSkipMinified file_path) ;;
    ret (minified_result rel_path)
  else
    eslint <-
      run [lit "eslint"; lit "--config"; path_join temp_dir (lit "eslintconfig.js");
           lit "--format=stylish"; file_path] (Some temp_dir) ;;
    log_callback (LogCompleted "JavaScript" rel_path) ;;
    ret (eslint_result rel_path eslint).

Definition node_modules_path : str :=
  path_join (path_join getcwd (lit "node_modules")) (lit ".bin").

(** [analyzers/html_analyzer.py] *)
Definition analyze_html (file_path rel_path : str) : M FileResult :=
  try_except
    (log_callback (LogStart "HTML") ;;
     let htmlhint_cmd := path_join node_modules_path (lit "htmlhint") in
     result <-
       run [htmlhint_cmd; file_path; lit "--config"; lit "htmlhint.config.js"]
           (Some temp_dir) ;;
     let issues :=
       if in_0_1 (returncode result) then stdout result else stderr result in
     log_callback (LogCompleted "HTML" rel_path) ;;
     ret (mkFileResult rel_path issues
            (count issues [10007%N]) (count issues [9888%N]) None))
    (fun e =>
       log_callback (LogFailed "HTML" e) ;;
       ret (failure_result rel_path e None)).

(** [analyzers/css_analyzer.py] *)
Definition analyze_css (file_path rel_path : str) : M FileResult :=
  try_except
    (log_callback (LogStart "CSS") ;;
     let stylelint_cmd := path_join node_modules_path (lit "stylelint") in
     result <-
       run [stylelint_cmd; file_path; lit "--formatter"; lit "string";
            lit "--config"; lit "stylelint.config.js"] (Some temp_dir) ;;
     let issues :=
       if in_0_1 (returncode result) then stdout result else stderr result in
     log_callback (LogCompleted "CSS" rel_path) ;;
     ret (mkFileResult rel_path issues
            (count issues [10006%N]) (count issues [9888%N]) None))
    (fun e =>
       log_callback (LogFailed "CSS" e) ;;
       ret (failure_result rel_path e None)).

(** [analyzers/java_analyzer.py] *)
Definition analyze_java (file_path rel_path : str) : M FileResult :=
  try_except
    (log_callback (LogStart "Java") ;;
     let checkstyle_jar :=
       default (lit "/home/ishu/checkstyle-10.12.0-all.jar") (getenv "CHECKSTYLE_JAR") in
     let checkstyle_config :=
       default (lit "/home/ishu/sun_checks.xml") (getenv "CHECKSTYLE_CONFIG") in
     result <-
       run [lit "java"; lit "-jar"; checkstyle_jar; lit "-c"; checkstyle_config;
            file_path] None ;;
     let issues :=
       if (returncode result =? 0)%Z then stdout result else stderr result in
     log_callback (LogCompleted "Java" rel_path) ;;
     ret (mkFileResult rel_path issues
            (count issues (lit "ERROR")) (count issues (lit "WARN")) None))
    (fun e =>
       log_callback (LogFailed "Java" e) ;;
       ret (failure_result rel_path e None)).

(** *** [repo_analyzer.py] *)

Definition config_files : list str :=
  [lit ".pylintrc"; lit "eslintconfig.js"; lit "htmlhint.config.js";
   lit "stylelint.config.js"].

(** [shutil.copy(src_path, dest_path)] with [dest_path] the name [n]
    directly under the top of the workspace: when that is a directory the
    file goes inside it, under the same name. A tree holds the names of the
    files, not their contents: the copy over a file of that name, which
    replaces its contents, leaves the tree as it is. *)
Definition shutil_copy (n : str) : M unit :=
  fun w =>
    match workspace w with
    | None => (Raised (lit "No such file or directory"), w)
    | Some (Node files dirs) =>
        match lookup_dir n dirs with
        | Some (Node sfiles sdirs) =>
            match lookup_dir n sdirs with
            | Some _ => (Raised (lit "Is a directory"), w)
            | None =>
                (Returned tt,
                 mkWorld
                   (Some (Node files
                            (update_dir n (Node (add_file n sfiles) sdirs) dirs)))
                   (trace w))
            end
        | None => (Returned tt, mkWorld (Some (Node (add_file n files) dirs)) (trace w))
        end
    end.

Definition create_linter_configs : M unit :=
  for_each
    (fun config_file (_ : unit) =>
       if config_exists config_file then shutil_copy config_file else ret tt)
    config_files tt.

(** [tempfile.mkdtemp()] *)
Definition mkdtemp : M str :=
  fun w => (Returned temp_dir, mkWorld (Some (Node [] [])) (trace w)).

(** [Repo.clone_from(repo_url, temp_dir)] *)
Definition clone (repo_url : str) : M unit :=
  fun w =>
    match clone_from repo_url with
    | Cloned t => (Returned tt, mkWorld (Some t) (trace w))
    | CloneRaised e t => (Raised e, mkWorld (Some t) (trace w))
    end.

(** [os.walk(temp_dir)], which yields nothing for a missing directory. *)
Definition os_walk : M (list (list str * list str)) :=
  fun w =>
    (Returned match workspace w with Some t => walk [] t | None => [] end, w).

(** [shutil.rmtree(temp_dir, ignore_errors=True)] *)
Definition rmtree : M unit :=
  fun w => (Returned tt, mkWorld None (trace w)).

(** [results[lang].append(res)] *)
Definition append_result (lang : string) (res : FileResult) (results : report)
  : M report :=
  match results !! lang with
  | Some l => ret (<[lang := l ++ [Result res]]> results)
  | None => raise (lit "'" ++ lit lang ++ lit "'")
  end.

(** [os.path.join(root, file)] for the directory [root] of the walk. *)
Definition file_path_of (root : list str) (file : str) : str :=
  path_join (foldl path_join temp_dir root) file.

(** [os.path.relpath(file_path, temp_dir)] *)
Definition rel_path_of (root : list str) (file : str) : str :=
  join (lit "/") (root ++ [file]).

Definition is_config (file : str) : bool := bool_decide (file ∈ config_files).

(** The body of the inner loop of [analyze_repo]; the state is
    [(results, processed_files)]. *)
Definition process_file (total_files : nat) (root : list str) (file : str)
    (st : report * nat) : M (report * nat) :=
  let '(results, processed_files) := st in
  if is_config file then
    log_callback (LogSkipConfig file) ;;
    ret (results, processed_files)
  else
    let processed_files := S processed_files in
    let file_path := file_path_of root file in
    let rel_path := rel_path_of root file in
    status_callback (Analyzing processed_files total_files rel_path) ;;
    log_callback (LogProcessing rel_path) ;;
    if endswith file (lit ".py") then
      res <- analyze_python file_path rel_path ;;
      results <- append_result "Python" res results ;;
      ret (results, processed_files)
    else if endswith file (lit ".js") then
      if endswith file (lit ".min.js") then
        log_callback (LogSkipMinified rel_path) ;;
        ret (results, processed_files)
      else
        res <- analyze_javascript file_path rel_path ;;
        results <- append_result "JavaScript" res results ;;
        ret (results, processed_files)
    else if endswith file (lit ".html") then
      res <- analyze_html file_path rel_path ;;
      results <- append_result "HTML" res results ;;
      ret (results, processed_files)
    else if endswith file (lit ".css") then
      res <- analyze_css file_path rel_path ;;
      results <- append_result "CSS" res results ;;
      ret (results, processed_files)
    else if endswith file (lit ".java") then
      res <- analyze_java file_path rel_path ;;
      results <- append_result "Java" res results ;;
      ret (results, processed_files)
    else ret (results, processed_files).

Definition initial_results : report :=
  {[ "Python" := []; "JavaScript" := []; "HTML" := []; "CSS" := []; "Java" := [] ]}.

(** The two nested [for] loops over [os.walk(temp_dir)]. *)
Definition walk_loop (total_files : nat) (w : list (list str * list str))
    (st : report * nat) : M (report * nat) :=
  for_each
    (fun dir st => for_each (process_file total_files (fst dir)) (snd dir) st)
    w st.

Definition analyze_repo (repo_url : str) : M report :=
  let results := initial_results in
  _ <- mkdtemp ;;
  failed <-
    try_except
      (log_callback (LogCloning repo_url) ;;
       clone repo_url ;;
       status_callback CloningComplete ;;
       ret None)
      (fun e =>
         log_callback (LogCloneError e) ;;
         ret (Some ({[ "Error" := [Message e] ]} : report))) ;;
  match failed with
  | Some error_report => ret error_report
  | None =>
      before <- os_walk ;;
      let total_files := count_files before in
      let processed_files := 0 in
      create_linter_configs ;;
      entries <- os_walk ;;
      st <- walk_loop total_files entries (results, processed_files) ;;
      rmtree ;;
      log_callback (LogCleaned temp_dir) ;;
      ret (fst st)
  end.

(** ** Observations on a run *)

(** The world after some more events. *)
Definition extend (w : world) (evs : list event) : world :=
  mkWorld (workspace w) (trace w ++ evs).

(** The messages [status_callback] received, in order. *)
Definition statuses (tr : list event) : list status_msg :=
  omap (fun e => match e with Status m => Some m | _ => None end) tr.

(** The calls of [subprocess.run], in order. *)
Definition execs (tr : list event) : list (list str * option str) :=
  omap (fun e => match e with Exec argv cwd => Some (argv, cwd) | _ => None end) tr.

(** The files of a walk, each with its directory, in the order the two
    loops of [analyze_repo] visit them. *)
Definition flatten (w : list (list str * list str)) : list (list str * str) :=
  flat_map (fun dir => map (pair (fst dir)) (snd dir)) w.

(** The visited files that are not linter configuration files. *)
Definition sources (es : list (list str * str)) : list (list str * str) :=
  filter (fun e => is_config (snd e) = false) es.

(** The language whose analyzer a file name is dispatched to, if any. *)
Definition language_of (file : str) : option string :=
  if is_config file then None
  else if endswith file (lit ".py") then Some "Python"
  else if endswith file (lit ".js") then
    if endswith file (lit ".min.js") then None else Some "JavaScript"
  else if endswith file (lit ".html") then Some "HTML"
  else if endswith file (lit ".css") then Some "CSS"
  else if endswith file (lit ".java") then Some "Java"
  else None.

(** The progress messages for a list of files, numbered from [1]. *)
Definition progress (total : nat) (es : list (list str * str)) : list status_msg :=
  imap (fun i e => Analyzing (S i) total (rel_path_of (fst e) (snd e))) es.

Definition languages : gset string :=
  {[ "Python"; "JavaScript"; "HTML"; "CSS"; "Java" ]}.

(** The ratings the specification lists. *)
Definition documented_ratings : list str :=
  [lit "Good"; lit "Needs Improvement"; lit "Poor"].

(** The lines of a text that are not empty. *)
Definition nonempty_lines (s : str) : list str :=
  filter (fun l => l <> []) (splitlines s).

(** The command lines of the analyzers. *)

Definition pylint_argv (file_path : str) : list str :=
  [lit "pylint"; lit "--output-format=text"; lit "--rcfile=.pylintrc"; file_path].

Definition flake8_argv (file_path : str) : list str :=
  [lit "flake8"; lit "--max-line-length=79"; file_path].

Definition eslint_argv (file_path : str) : list str :=
  [lit "npx"; lit "eslint"; lit "--config"; lit "eslintconfig.js";
   lit "--format=stylish"; file_path].

Definition eslint_module_argv (temp_dir file_path : str) : list str :=
  [lit "eslint"; lit "--config"; path_join temp_dir (lit "eslintconfig.js");
   lit "--format=stylish"; file_path].

Definition htmlhint_argv (file_path : str) : list str :=
  [path_join node_modules_path (lit "htmlhint"); file_path;
   lit "--config"; lit "htmlhint.config.js"].

Definition stylelint_argv (file_path : str) : list str :=
  [path_join node_modules_path (lit "stylelint"); file_path;
   lit "--formatter"; lit "string"; lit "--config"; lit "stylelint.config.js"].

Definition checkstyle_argv (file_path : str) : list str :=
  [lit "java"; lit "-jar";
   default (lit "/home/ishu/checkstyle-10.12.0-all.jar") (getenv "CHECKSTYLE_JAR");
   lit "-c";
   default (lit "/home/ishu/sun_checks.xml") (getenv "CHECKSTYLE_CONFIG");
   file_path].

(** The result of the Python analyzer when both tools complete. *)
Definition python_result (rel_path : str) (pylint flake8 : CompletedProcess)
  : FileResult :=
  let pylint_issues :=
    if in_0_1 (returncode pylint) then stdout pylint else stderr pylint in
  let errors :=
    count pylint_issues (lit "error") + count pylint_issues (lit "Error")
    + length (splitlines (strip (stdout flake8))) in
  let warnings :=
    count pylint_issues (lit "warning") + count pylint_issues (lit "Warning") in
  mkFileResult rel_path
    (lit "Pylint Issues:" ++ [10%N] ++ pylint_issues ++ [10; 10]%N
       ++ lit "Flake8 Issues:" ++ [10%N] ++ strip (stdout flake8))
    errors warnings
    (Some (if Nat.ltb 5 errors then lit "Poor"
           else if Nat.eqb errors 0 && Nat.eqb warnings 0 then lit "Good"
                else lit "Needs Improvement")).

(** The result of the analyzers that count two marks in the tool's text. *)
Definition simple_result (rel_path issues mark_e mark_w : str) : FileResult :=
  mkFileResult rel_path issues (count issues mark_e) (count issues mark_w) None.

(** The files of a walk that the orchestrator hands to the analyzer of
    [lang]. *)
Definition dispatched (lang : string) (es : list (list str * str))
  : list (list str * str) :=
  filter (fun e => language_of (snd e) = Some lang) es.

(** The body of the loop over the flattened walk. *)
Definition visit (total_files : nat) (e : list str * str) (st : report * nat)
  : M (report * nat) :=
  process_file total_files (fst e) (snd e) st.

(** The state of the walk after the files [seen], started in the world
    [w0] with empty result lists: the workspace is untouched, every file
    that is not a configuration file was counted and announced, and the
    list of a language holds one result per file dispatched to it, in the
    order of the walk. *)
Definition walk_invariant (w0 : world) (total : nat) (seen : list (list str * str))
    (st : report * nat) (w : world) : Prop :=
  workspace w = workspace w0
  /\ snd st = length (sources seen)
  /\ statuses (trace w) = statuses (trace w0) ++ progress total (sources seen)
  /\ dom (fst st) = languages
  /\ forall lang l, fst st !! lang = Some l ->
       exists rs, l = map Result rs
         /\ map file rs = map (fun e => rel_path_of (fst e) (snd e)) (dispatched lang seen).

(** The state in which an exception leaves the walk: it comes from the
    invocation of ESLint on the last file seen. *)
Definition walk_interrupted (w0 : world) (total : nat) (seen : list (list str * str))
    (e : str) (w : world) : Prop :=
  workspace w = workspace w0
  /\ statuses (trace w) = statuses (trace w0) ++ progress total (sources seen)
  /\ exists file_path, subprocess_run (eslint_argv file_path) (Some temp_dir) = RunRaised e.

Definition subdirs (t : tree) : list (str * tree) :=
  match t with Node _ dirs => dirs end.

(** No directory at the top of the checkout bears the name of a linter
    configuration file. *)
Definition no_config_dir (t : tree) : Prop :=
  forall n, is_config n = true -> lookup_dir n (subdirs t) = None.

(** The world in which the walk starts: the checkout is in place and the
    two messages of the clone step were sent. *)
Definition cloned_world (w : world) (repo_url : str) (t : tree) : world :=
  mkWorld (Some t) (trace w ++ [Log (LogCloning repo_url); Status CloningComplete]).

(** ** Concrete environments *)

(** No tool is installed: every invocation raises. *)
Definition tools_missing : list str -> option str -> run_outcome :=
  fun _ _ => RunRaised (lit "[Errno 2] No such file or directory").

(** Every tool ends with exit code [rc] after printing [out] on its standard
    output and [err] on its standard error. *)
Definition tools_print (rc : Z) (out err : str) : list str -> option str -> run_outcome :=
  fun _ _ => Completed (mkCompleted rc out err).

(** Pylint prints [pylint_out] and ends with exit code 0, Flake8 prints
    [flake8_out] and ends with exit code 1. *)
Definition lint_outputs (pylint_out flake8_out : str)
  : list str -> option str -> run_outcome :=
  fun argv _ =>
    match argv with
    | tool :: _ =>
        if bool_decide (tool = lit "flake8")
        then Completed (mkCompleted 1 flake8_out [])
        else Completed (mkCompleted 0 pylint_out [])
    | [] => RunRaised (lit "empty command")
    end.

(** Java and Checkstyle are installed and no other tool: Checkstyle ends
    with exit code 1, every other invocation raises. *)
Definition checkstyle_only : list str -> option str -> run_outcome :=
  fun argv _ =>
    match argv with
    | tool :: _ =>
        if bool_decide (tool = lit "java")
        then Completed (mkCompleted 1 (lit "Starting audit...")
                          (lit "[ERROR] A.java:1: [WARN]"))
        else RunRaised (lit "[Errno 2] No such file or directory")
    | [] => RunRaised (lit "empty command")
    end.

Definition clone_gives (t : tree) : str -> clone_outcome := fun _ => Cloned t.

Definition clone_fails : str -> clone_outcome :=
  fun _ => CloneRaised (lit "repository not found") (Node [] []).

Definition no_env : string -> option str := fun _ => None.

Definition fresh_world : world := mkWorld None [].

Definition example_url : str := lit "https://example.org/repo.git".
Definition example_cwd : str := lit "/srv/app".
Definition example_tmp : str := lit "/tmp/tmpab12".

Definition readme_checkout : tree := Node [lit "README.md"] [].
Definition minified_checkout : tree := Node [lit "x.min.js"] [].
Definition script_checkout : tree := Node [lit "app.js"] [].
Definition config_checkout : tree :=
  Node [lit "main.py"] [(lit "web", Node [lit "eslintconfig.js"] [])].

(** Two findings of Flake8 with an empty line between them. *)
Definition flake8_two_findings : str :=
  lit "a.py:1:1: E265" ++ [10; 10]%N ++ lit "a.py:2:1: W391" ++ [10]%N.

(** ** Further observations *)

(** The files of a walk that some analyzer takes. *)
Definition analyzed (es : list (list str * str)) : list (list str * str) :=
  filter (fun e => language_of (snd e) <> None) es.

(** A progress message whose numerator lies between 1 and its denominator
    [total]. *)
Definition within_total (total : nat) (m : status_msg) : Prop :=
  match m with
  | Analyzing processed total' _ => total' = total /\ 1 <= processed <= total
  | CloningComplete => False
  end.

(** ** [analyse.py]: the orchestrator in one function

    [analyse.py] (and [app_demo2.py], which has the same function) holds an
    earlier [analyze_repo] with the analyzers written out in the loop. It
    skips no file, every branch has its own [try], and it writes the
    configuration files itself. *)

(** Whether [open(path, "w")] on the name [n] at the top of the workspace
    raises for a reason the tree does not show (the name is a dangling
    symbolic link, the directory cannot be written, ...), and the message
    of the exception. *)
Variable open_refused : str -> option str.

(** [with open(os.path.join(temp_dir, n), "w") as f: f.write(...)] *)
Definition write_config (n : str) : M unit :=
  fun w =>
    match workspace w with
    | None => (Raised (lit "No such file or directory"), w)
    | Some (Node files dirs) =>
        match lookup_dir n dirs with
        | Some _ => (Raised (lit "Is a directory"), w)
        | None =>
            match open_refused n with
            | Some e => (Raised e, w)
            | None =>
                (Returned tt, mkWorld (Some (Node (add_file n files) dirs)) (trace w))
            end
        end
    end.

(** [create_linter_configs] of [analyse.py]: the four files, in this
    order, whatever the checkout holds. *)
Definition analyse_create_linter_configs : M unit :=
  for_each (fun config_file (_ : unit) => write_config config_file) config_files tt.

Definition analyse_eslint_argv (file_path : str) : list str :=
  [lit "npx"; lit "eslint"; file_path; lit "--format"; lit "stylish";
   lit "--config"; lit "eslintconfig.js"].

(** Each branch of the loop of [analyse.py] has this shape: inside one
    [try] the tool runs, its result is appended to the list of the language
    and the completion is logged; the [except] branch logs the failure and
    appends the substituted result. *)
Definition analyse_branch (lang : string) (argv : list str) (cwd : option str)
    (result_of : CompletedProcess -> FileResult) (rel_path : str) (results : report)
  : M report :=
  try_except
    (log_callback (LogStart lang) ;;
     result <- run argv cwd ;;
     results' <- append_result lang (result_of result) results ;;
     log_callback (LogCompleted lang rel_path) ;;
     ret results')
    (fun e =>
       log_callback (LogFailed lang e) ;;
       append_result lang (failure_result rel_path e None) results).

Definition analyse_python_result (rel_path : str) (result : CompletedProcess) : FileResult :=
  let issues := if in_0_1 (returncode result) then stdout result else stderr result in
  mkFileResult rel_path issues
    (count issues (lit "error") + count issues (lit "Error"))
    (count issues (lit "warning") + count issues (lit "Warning")) None.

Definition analyse_javascript_result (rel_path : str) (result : CompletedProcess)
  : FileResult :=
  let issues :=
    if in_0_1 (returncode result) then stdout result
    else lit "ESLint Error: " ++ stderr result in
  simple_result rel_path issues [10006%N] [9888%N].

Definition analyse_html_result (rel_path : str) (result : CompletedProcess) : FileResult :=
  simple_result rel_path
    (if in_0_1 (returncode result) then stdout result else stderr result)
    [10007%N] [9888%N].

Definition analyse_css_result (rel_path : str) (result : CompletedProcess) : FileResult :=
  simple_result rel_path
    (if in_0_1 (returncode result) then stdout result else stderr result)
    [10006%N] [9888%N].

Definition analyse_java_result (rel_path : str) (result : CompletedProcess) : FileResult :=
  simple_result rel_path
    (if (returncode result =? 0)%Z then stdout result else stderr result)
    (lit "ERROR") (lit "WARN").

(** The body of the inner loop of [analyze_repo] in [analyse.py]. The
    percentage [int((processed_files / total_files) * 100)] is computed and
    not used; the division raises when [total_files] is 0. *)
Definition analyse_process_file (total_files : nat) (root : list str) (file : str)
    (st : report * nat) : M (report * nat) :=
  let '(results, processed_files) := st in
  let processed_files := S processed_files in
  let file_path := file_path_of root file in
  let rel_path := rel_path_of root file in
  (if Nat.eqb total_files 0 then raise (lit "division by zero") else ret tt) ;;
  status_callback (Analyzing processed_files total_files rel_path) ;;
  log_callback (LogProcessing rel_path) ;;
  if endswith file (lit ".py") then
    results <- analyse_branch "Python" (pylint_argv file_path) (Some temp_dir)
                 (analyse_python_result rel_path) rel_path results ;;
    ret (results, processed_files)
  else if endswith file (lit ".js") then
    results <- analyse_branch "JavaScript" (analyse_eslint_argv file_path) (Some temp_dir)
                 (analyse_javascript_result rel_path) rel_path results ;;
    ret (results, processed_files)
  else if endswith file (lit ".html") then
    results <- analyse_branch "HTML" (htmlhint_argv file_path) (Some temp_dir)
                 (analyse_html_result rel_path) rel_path results ;;
    ret (results, processed_files)
  else if endswith file (lit ".css") then
    results <- analyse_branch "CSS" (stylelint_argv file_path) (Some temp_dir)
                 (analyse_css_result rel_path) rel_path results ;;
    ret (results, processed_files)
  else if endswith file (lit ".java") then
    results <- analyse_branch "Java" (checkstyle_argv file_path) None
                 (analyse_java_result rel_path) rel_path results ;;
    ret (results, processed_files)
  else ret (results, processed_files).

Definition analyse_walk_loop (total_files : nat) (w : list (list str * list str))
    (st : report * nat) : M (report * nat) :=
  for_each
    (fun dir st => for_each (analyse_process_file total_files (fst dir)) (snd dir) st)
    w st.

(** [analyze_repo] of [analyse.py]. *)
Definition analyse_analyze_repo (repo_url : str) : M report :=
  let results := initial_results in
  _ <- mkdtemp ;;
  failed <-
    try_except
      (log_callback (LogCloning repo_url) ;;
       clone repo_url ;;
       status_callback CloningComplete ;;
       ret None)
      (fun e =>
         log_callback (LogCloneError e) ;;
         ret (Some ({[ "Error" := [Message e] ]} : report))) ;;
  match failed with
  | Some error_report => ret error_report
  | None =>
      before <- os_walk ;;
      let total_files := count_files before in
      let processed_files := 0 in
      analyse_create_linter_configs ;;
      entries <- os_walk ;;
      st <- analyse_walk_loop total_files entries (results, processed_files) ;;
      rmtree ;;
      log_callback (LogCleaned temp_dir) ;;
      ret (fst st)
  end.

(** The lines the branches of [analyse.py] log before they run their
    tool. *)
Definition analyse_start_banner (lang : string) : str :=
  if String.eqb lang "Python" then [128013%N] ++ lit " Running Pylint analysis..."
  else if String.eqb lang "JavaScript"
       then [128220%N] ++ lit " Running ESLint analysis (using npx)..."
  else start_banner lang.

(** The text handed to [log_callback] by [analyse.py]. *)
Definition analyse_render_log (m : log_msg) : str :=
  match m with
  | LogStart lang => analyse_start_banner lang
  | _ => render_log m
  end.

(** The language a file name has for the loop of [analyse.py]. *)
Definition analyse_language_of (file : str) : option string :=
  if endswith file (lit ".py") then Some "Python"
  else if endswith file (lit ".js") then Some "JavaScript"
  else if endswith file (lit ".html") then Some "HTML"
  else if endswith file (lit ".css") then Some "CSS"
  else if endswith file (lit ".java") then Some "Java"
  else None.

Definition analyse_dispatched (lang : string) (es : list (list str * str))
  : list (list str * str) :=
  filter (fun e => analyse_language_of (snd e) = Some lang) es.

Definition analyse_visit (total_files : nat) (e : list str * str) (st : report * nat)
  : M (report * nat) :=
  analyse_process_file total_files (fst e) (snd e) st.

(** The state of the loop of [analyse.py] after the files [seen]. *)
Definition analyse_invariant (w0 : world) (total : nat) (seen : list (list str * str))
    (st : report * nat) (w : world) : Prop :=
  workspace w = workspace w0
  /\ snd st = length seen
  /\ statuses (trace w) = statuses (trace w0) ++ progress total seen
  /\ dom (fst st) = languages
  /\ forall lang l, fst st !! lang = Some l ->
       exists rs, l = map Result rs
         /\ map file rs =
              map (fun e => rel_path_of (fst e) (snd e)) (analyse_dispatched lang seen).

(** * Properties *)

(** ** Python strings *)
Lemma startswith_prefix (s pre : str) : startswith s pre = true <-> pre `prefix_of` s.
Proof.
  revert s. induction pre as [|p pre IH]; intros s; simpl.
  - split; [intros _; apply prefix_nil | done].
  - destruct s as [|c s].
    + split; [done | intros H; by apply prefix_nil_not in H].
    + destruct (N.eqb_spec p c) as [->|Hne].
      * rewrite IH. split; [apply prefix_cons | apply prefix_cons_inv_2].
      * split; [done | intros H; apply prefix_cons_inv_1 in H; done].
Qed.

Lemma startswith_border (sub rest : str) (j : nat) :
  j ≤ length sub ->
  startswith (drop j (sub ++ rest)) sub = true ->
  startswith sub (drop j sub) = true.
Proof.
  intros Hj H. apply startswith_prefix. apply startswith_prefix in H.
  rewrite drop_app_le in H by done.
  assert (drop j sub `prefix_of` drop j sub ++ rest) as H2 by by apply prefix_app_r.
  destruct (prefix_weak_total _ _ _ H H2) as [Hp|Hp]; [|done].
  apply prefix_length_eq in Hp; [by rewrite <- Hp|].
  rewrite length_drop. lia.
Qed.

Lemma count_from_occurrences (sub : str) :
  unbordered sub = true ->
  forall s k,
    (forall i, i < k -> startswith (drop i s) sub = false) ->
    count_from sub k s = occurrences sub s.
Proof.
  intros Hub. induction s as [|c s IH]; intros k Hk; [done|].
  destruct k as [|k]; simpl.
  - destruct (startswith (c :: s) sub) eqn:E.
    + f_equal. apply IH. intros i Hi.
      destruct (startswith (drop i s) sub) eqn:E2; [|done].
      apply startswith_prefix in E as [rest E].
      change (drop i s) with (drop (S i) (c :: s)) in E2. rewrite E in E2.
      apply startswith_border in E2; [|lia].
      unfold unbordered in Hub. rewrite forallb_forall in Hub.
      specialize (Hub (S i)). rewrite E2 in Hub.
      assert (In (S i) (seq 1 (length sub - 1))) as Hin by (apply in_seq; lia).
      apply Hub in Hin. done.
    + apply IH. intros i Hi. lia.
  - assert (startswith (c :: s) sub = false) as -> by (apply (Hk 0); lia).
    simpl. apply IH. intros i Hi. apply (Hk (S i)). lia.
Qed.

Lemma count_occurrences (s sub : str) :
  sub <> [] -> unbordered sub = true -> count s sub = occurrences sub s.
Proof.
  intros Hne Hub. destruct sub as [|p sub]; [done|].
  apply count_from_occurrences; [done | intros i Hi; lia].
Qed.

Lemma endswith_suffix (s suf : str) : endswith s suf = true <-> suf `suffix_of` s.
Proof.
  unfold endswith. rewrite startswith_prefix. split.
  - intros [k E]. exists (rev k).
    by rewrite <- (rev_involutive s), E, rev_app_distr, rev_involutive.
  - intros [k ->]. exists (rev k). by rewrite rev_app_distr.
Qed.

(** Of two suffixes of one name, one is a suffix of the other. *)
Lemma endswith_exclusive (s a b : str) :
  endswith s a = true -> endswith a b = false -> endswith b a = false ->
  endswith s b = false.
Proof.
  intros Ha Hab Hba. destruct (endswith s b) eqn:Hb; [|done].
  apply endswith_suffix in Ha, Hb.
  destruct (suffix_weak_total _ _ _ Ha Hb) as [H|H]; apply endswith_suffix in H; congruence.
Qed.

Lemma endswith_weaken (s a b : str) :
  endswith s a = true -> endswith a b = true -> endswith s b = true.
Proof.
  rewrite !endswith_suffix. intros H1 H2. by etrans.
Qed.

(** ** The monad *)

Lemma extend_nil (w : world) : extend w [] = w.
Proof. destruct w; unfold extend; simpl. by rewrite app_nil_r. Qed.

Lemma extend_extend (w : world) (a b : list event) :
  extend (extend w a) b = extend w (a ++ b).
Proof. unfold extend; simpl. by rewrite app_assoc. Qed.

Lemma statuses_app (a b : list event) : statuses (a ++ b) = statuses a ++ statuses b.
Proof. apply omap_app. Qed.

Lemma bind_emit {B} (e : event) (k : M B) (w : world) :
  (emit e ;; k) w = k (extend w [e]).
Proof. reflexivity. Qed.

Lemma bind_returned {A B} (m : M A) (k : A -> M B) (w w' : world) (a : A) :
  m w = (Returned a, w') -> (x <- m ;; k x) w = k a w'.
Proof. intros H. unfold bind. by rewrite H. Qed.

Lemma bind_raised {A B} (m : M A) (k : A -> M B) (w w' : world) (e : str) :
  m w = (Raised e, w') -> (x <- m ;; k x) w = (Raised e, w').
Proof. intros H. unfold bind. by rewrite H. Qed.

Ltac run_monad :=
  unfold try_except, bind, log_callback, status_callback, emit, ret, raise; cbn.

(** ** The analyzers *)

Lemma run_completed argv cwd p w :
  subprocess_run argv cwd = Completed p ->
  run argv cwd w = (Returned p, extend w [Exec argv cwd]).
Proof. intros H. unfold run. run_monad. by rewrite H. Qed.

Lemma run_raised argv cwd e w :
  subprocess_run argv cwd = RunRaised e ->
  run argv cwd w = (@Raised CompletedProcess e, extend w [Exec argv cwd]).
Proof. intros H. unfold run. run_monad. by rewrite H. Qed.

Local Arguments Nat.ltb : simpl never.
Local Arguments Nat.eqb : simpl never.
Local Arguments Nat.add : simpl never.

Lemma splitlines_truthy (l : str) :
  match l with [] => 0 | _ :: _ => length (splitlines l) end = length (splitlines l).
Proof. by destruct l. Qed.

Lemma analyze_python_completed fp rel p1 p2 w :
  subprocess_run (pylint_argv fp) (Some temp_dir) = Completed p1 ->
  subprocess_run (flake8_argv fp) (Some temp_dir) = Completed p2 ->
  analyze_python fp rel w =
    (Returned (python_result rel p1 p2),
     extend w [Log (LogStart "Python"); Exec (pylint_argv fp) (Some temp_dir);
               Exec (flake8_argv fp) (Some temp_dir); Log (LogCompleted "Python" rel)]).
Proof.
  intros H1 H2. unfold analyze_python, run, pylint_argv, flake8_argv in *.
  run_monad. rewrite H1. cbn. rewrite H2. cbn.
  unfold extend, python_result. cbn. rewrite <- !app_assoc. cbn.
  rewrite splitlines_truthy, Nat.add_0_r. reflexivity.
Qed.

Lemma analyze_python_pylint_raised fp rel e w :
  subprocess_run (pylint_argv fp) (Some temp_dir) = RunRaised e ->
  analyze_python fp rel w =
    (Returned (failure_result rel e (Some (lit "Error"))),
     extend w [Log (LogStart "Python"); Exec (pylint_argv fp) (Some temp_dir);
               Log (LogFailed "Python" e)]).
Proof.
  intros H1. unfold analyze_python, run, pylint_argv in *.
  run_monad. rewrite H1. cbn. unfold extend. cbn. by rewrite <- !app_assoc.
Qed.

Lemma analyze_python_flake8_raised fp rel p1 e w :
  subprocess_run (pylint_argv fp) (Some temp_dir) = Completed p1 ->
  subprocess_run (flake8_argv fp) (Some temp_dir) = RunRaised e ->
  analyze_python fp rel w =
    (Returned (failure_result rel e (Some (lit "Error"))),
     extend w [Log (LogStart "Python"); Exec (pylint_argv fp) (Some temp_dir);
               Exec (flake8_argv fp) (Some temp_dir); Log (LogFailed "Python" e)]).
Proof.
  intros H1 H2. unfold analyze_python, run, pylint_argv, flake8_argv in *.
  run_monad. rewrite H1. cbn. rewrite H2. cbn. unfold extend. cbn.
  by rewrite <- !app_assoc.
Qed.

(** The Python analyzer always returns a result for the file it was given,
    and tells nothing to [status_callback]. *)
Lemma analyze_python_returns fp rel w :
  exists r evs,
    analyze_python fp rel w = (Returned r, extend w evs)
    /\ file r = rel /\ statuses evs = [].
Proof.
  destruct (subprocess_run (pylint_argv fp) (Some temp_dir)) as [p1|e] eqn:H1.
  - destruct (subprocess_run (flake8_argv fp) (Some temp_dir)) as [p2|e] eqn:H2.
    + eexists _, _. by rewrite (analyze_python_completed _ _ _ _ _ H1 H2).
    + eexists _, _. by rewrite (analyze_python_flake8_raised _ _ _ _ _ H1 H2).
  - eexists _, _. by rewrite (analyze_python_pylint_raised _ _ _ _ H1).
Qed.

Lemma analyze_html_completed fp rel p w :
  subprocess_run (htmlhint_argv fp) (Some temp_dir) = Completed p ->
  analyze_html fp rel w =
    (Returned (simple_result rel
                 (if in_0_1 (returncode p) then stdout p else stderr p)
                 [10007%N] [9888%N]),
     extend w [Log (LogStart "HTML"); Exec (htmlhint_argv fp) (Some temp_dir);
               Log (LogCompleted "HTML" rel)]).
Proof.
  intros H. unfold analyze_html, run, htmlhint_argv in *.
  run_monad. rewrite H. cbn. unfold extend. cbn. by rewrite <- !app_assoc.
Qed.

Lemma analyze_html_raised fp rel e w :
  subprocess_run (htmlhint_argv fp) (Some temp_dir) = RunRaised e ->
  analyze_html fp rel w =
    (Returned (failure_result rel e None),
     extend w [Log (LogStart "HTML"); Exec (htmlhint_argv fp) (Some temp_dir);
               Log (LogFailed "HTML" e)]).
Proof.
  intros H. unfold analyze_html, run, htmlhint_argv in *.
  run_monad. rewrite H. cbn. unfold extend. cbn. by rewrite <- !app_assoc.
Qed.

Lemma analyze_html_returns fp rel w :
  exists r evs,
    analyze_html fp rel w = (Returned r, extend w evs)
    /\ file r = rel /\ statuses evs = [].
Proof.
  destruct (subprocess_run (htmlhint_argv fp) (Some temp_dir)) as [p|e] eqn:H.
  - eexists _, _. by rewrite (analyze_html_completed _ _ _ _ H).
  - eexists _, _. by rewrite (analyze_html_raised _ _ _ _ H).
Qed.

Lemma analyze_css_completed fp rel p w :
  subprocess_run (stylelint_argv fp) (Some temp_dir) = Completed p ->
  analyze_css fp rel w =
    (Returned (simple_result rel
                 (if in_0_1 (returncode p) then stdout p else stderr p)
                 [10006%N] [9888%N]),
     extend w [Log (LogStart "CSS"); Exec (stylelint_argv fp) (Some temp_dir);
               Log (LogCompleted "CSS" rel)]).
Proof.
  intros H. unfold analyze_css, run, stylelint_argv in *.
  run_monad. rewrite H. cbn. unfold extend. cbn. by rewrite <- !app_assoc.
Qed.

Lemma analyze_css_raised fp rel e w :
  subprocess_run (stylelint_argv fp) (Some temp_dir) = RunRaised e ->
  analyze_css fp rel w =
    (Returned (failure_result rel e None),
     extend w [Log (LogStart "CSS"); Exec (stylelint_argv fp) (Some temp_dir);
               Log (LogFailed "CSS" e)]).
Proof.
  intros H. unfold analyze_css, run, stylelint_argv in *.
  run_monad. rewrite H. cbn. unfold extend. cbn. by rewrite <- !app_assoc.
Qed.

Lemma analyze_css_returns fp rel w :
  exists r evs,
    analyze_css fp rel w = (Returned r, extend w evs)
    /\ file r = rel /\ statuses evs = [].
Proof.
  destruct (subprocess_run (stylelint_argv fp) (Some temp_dir)) as [p|e] eqn:H.
  - eexists _, _. by rewrite (analyze_css_completed _ _ _ _ H).
  - eexists _, _. by rewrite (analyze_css_raised _ _ _ _ H).
Qed.

Lemma analyze_java_completed fp rel p w :
  subprocess_run (checkstyle_argv fp) None = Completed p ->
  analyze_java fp rel w =
    (Returned (simple_result rel
                 (if (returncode p =? 0)%Z then stdout p else stderr p)
                 (lit "ERROR") (lit "WARN")),
     extend w [Log (LogStart "Java"); Exec (checkstyle_argv fp) None;
               Log (LogCompleted "Java" rel)]).
Proof.
  intros H. unfold analyze_java, run, checkstyle_argv in *.
  run_monad. rewrite H. cbn. unfold extend. cbn. by rewrite <- !app_assoc.
Qed.

Lemma analyze_java_raised fp rel e w :
  subprocess_run (checkstyle_argv fp) None = RunRaised e ->
  analyze_java fp rel w =
    (Returned (failure_result rel e None),
     extend w [Log (LogStart "Java"); Exec (checkstyle_argv fp) None;
               Log (LogFailed "Java" e)]).
Proof.
  intros H. unfold analyze_java, run, checkstyle_argv in *.
  run_monad. rewrite H. cbn. unfold extend. cbn. by rewrite <- !app_assoc.
Qed.

Lemma analyze_java_returns fp rel w :
  exists r evs,
    analyze_java fp rel w = (Returned r, extend w evs)
    /\ file r = rel /\ statuses evs = [].
Proof.
  destruct (subprocess_run (checkstyle_argv fp) None) as [p|e] eqn:H.
  - eexists _, _. by rewrite (analyze_java_completed _ _ _ _ H).
  - eexists _, _. by rewrite (analyze_java_raised _ _ _ _ H).
Qed.

Lemma analyze_javascript_completed fp rel p w :
  endswith fp (lit ".min.js") = false ->
  subprocess_run (eslint_argv fp) (Some temp_dir) = Completed p ->
  analyze_javascript fp rel w =
    (Returned (eslint_result rel p),
     extend w [Exec (eslint_argv fp) (Some temp_dir); Log (LogCompleted "JavaScript" rel)]).
Proof.
  intros Hm H. unfold analyze_javascript, run, eslint_argv in *. rewrite Hm.
  run_monad. rewrite H. cbn. unfold extend. cbn. by rewrite <- !app_assoc.
Qed.

Lemma analyze_javascript_raised fp rel e w :
  endswith fp (lit ".min.js") = false ->
  subprocess_run (eslint_argv fp) (Some temp_dir) = RunRaised e ->
  analyze_javascript fp rel w =
    (Raised e, extend w [Exec (eslint_argv fp) (Some temp_dir)]).
Proof.
  intros Hm H. unfold analyze_javascript, run, eslint_argv in *. rewrite Hm.
  run_monad. by rewrite H.
Qed.

Lemma analyze_javascript_minified fp rel w :
  endswith fp (lit ".min.js") = true ->
  analyze_javascript fp rel w =
    (Returned (minified_result rel), extend w [Log (LogSkipMinified fp)]).
Proof. intros Hm. unfold analyze_javascript. by rewrite Hm. Qed.

Lemma analyze_javascript_module_raised fp rel e w :
  endswith fp (lit ".min.js") = false ->
  subprocess_run (eslint_module_argv temp_dir fp) (Some temp_dir) = RunRaised e ->
  analyze_javascript_module fp rel w =
    (Raised e, extend w [Exec (eslint_module_argv temp_dir fp) (Some temp_dir)]).
Proof.
  intros Hm H. unfold analyze_javascript_module, run, eslint_module_argv in *.
  rewrite Hm. run_monad. by rewrite H.
Qed.

(** The JavaScript analyzer returns a result for its file, or lets the
    exception of ESLint's invocation through. *)
Lemma analyze_javascript_outcome fp rel w :
  exists evs, statuses evs = [] /\
    ((exists r, analyze_javascript fp rel w = (Returned r, extend w evs) /\ file r = rel)
     \/ (exists e, analyze_javascript fp rel w = (Raised e, extend w evs)
                  /\ endswith fp (lit ".min.js") = false
                  /\ subprocess_run (eslint_argv fp) (Some temp_dir) = RunRaised e)).
Proof.
  destruct (endswith fp (lit ".min.js")) eqn:Hm.
  - eexists. split; [|left; eexists; split; [by apply analyze_javascript_minified|done]].
    done.
  - destruct (subprocess_run (eslint_argv fp) (Some temp_dir)) as [p|e] eqn:H.
    + eexists. split; [|left; eexists; split; [by apply analyze_javascript_completed|done]].
      done.
    + eexists. split; [|right; eexists; split; [by apply analyze_javascript_raised|done]].
      done.
Qed.

(** ** One file of the walk *)

Lemma append_result_present lang res (results : report) l w :
  results !! lang = Some l ->
  append_result lang res results w =
    (Returned (<[lang := l ++ [Result res]]> results), w).
Proof. intros H. unfold append_result. by rewrite H. Qed.

Lemma languages_lookup (results : report) lang :
  dom results = languages -> lang ∈ languages -> exists l, results !! lang = Some l.
Proof.
  intros Hd Hl. rewrite <- Hd in Hl. apply elem_of_dom in Hl as [l Hl]. eauto.
Qed.

Lemma dom_append lang (results : report) l l' :
  results !! lang = Some l -> dom (<[lang := l']> results) = dom results.
Proof.
  intros H. rewrite dom_insert_L.
  assert (lang ∈ dom results) as Hin by (apply elem_of_dom; eauto).
  apply set_eq. intros x. rewrite elem_of_union, elem_of_singleton.
  split; [intros [->|]; done | by right].
Qed.

Lemma process_file_config total root file results n w :
  is_config file = true ->
  process_file total root file (results, n) w =
    (Returned (results, n), extend w [Log (LogSkipConfig file)]).
Proof. intros H. unfold process_file. by rewrite H. Qed.

Lemma config_not_minified file :
  is_config file = true -> endswith file (lit ".min.js") = false.
Proof.
  unfold is_config. intros H. apply bool_decide_eq_true in H.
  unfold config_files in H.
  repeat (apply elem_of_cons in H as [->|H]; [by vm_compute|]).
  by apply elem_of_nil in H.
Qed.

Lemma process_file_minified total root file results n w :
  endswith file (lit ".min.js") = true ->
  process_file total root file (results, n) w =
    (Returned (results, S n),
     extend w [Status (Analyzing (S n) total (rel_path_of root file));
               Log (LogProcessing (rel_path_of root file));
               Log (LogSkipMinified (rel_path_of root file))]).
Proof.
  intros Hm. unfold process_file.
  destruct (is_config file) eqn:Hc.
  { apply config_not_minified in Hc. congruence. }
  assert (endswith file (lit ".py") = false) as ->.
  { by apply (endswith_exclusive _ _ _ Hm). }
  assert (endswith file (lit ".js") = true) as ->.
  { by apply (endswith_weaken _ _ _ Hm). }
  rewrite Hm. unfold status_callback, log_callback.
  by rewrite !bind_emit, !extend_extend.
Qed.

Lemma language_of_minified file :
  endswith file (lit ".min.js") = true -> language_of file = None.
Proof.
  intros Hm. unfold language_of. destruct (is_config file); [done|].
  assert (endswith file (lit ".py") = false) as ->.
  { by apply (endswith_exclusive _ _ _ Hm). }
  assert (endswith file (lit ".js") = true) as ->.
  { by apply (endswith_weaken _ _ _ Hm). }
  by rewrite Hm.
Qed.

Lemma language_of_config file lang :
  language_of file = Some lang -> is_config file = false.
Proof. unfold language_of. by destruct (is_config file). Qed.

Lemma language_of_languages file lang :
  language_of file = Some lang -> lang ∈ languages.
Proof.
  unfold language_of, languages.
  repeat (case_match; try done); intros [= <-]; set_solver.
Qed.

(** What the loop body does with a file that is not a configuration file. *)
Lemma process_file_source total root name results n w :
  is_config name = false ->
  dom results = languages ->
  exists evs, statuses evs = [] /\
    let rel := rel_path_of root name in
    let w' := extend w ([Status (Analyzing (S n) total rel); Log (LogProcessing rel)] ++ evs) in
    match language_of name with
    | Some lang =>
        (exists res l,
            process_file total root name (results, n) w =
              (Returned (<[lang := l ++ [Result res]]> results, S n), w')
            /\ results !! lang = Some l /\ file res = rel)
        \/ (exists e,
               process_file total root name (results, n) w = (Raised e, w')
               /\ lang = "JavaScript"
               /\ subprocess_run (eslint_argv (file_path_of root name)) (Some temp_dir)
                  = RunRaised e)
    | None =>
        process_file total root name (results, n) w = (Returned (results, S n), w')
    end.
Proof.
  intros Hc Hd. cbv zeta. unfold process_file, language_of. rewrite Hc.
  set (rel := rel_path_of root name). set (fp := file_path_of root name).
  unfold status_callback, log_callback. rewrite !bind_emit, extend_extend. cbn [app].
  set (w1 := extend w [Status (Analyzing (S n) total rel); Log (LogProcessing rel)]).
  assert (forall evs, extend w1 evs =
            extend w ([Status (Analyzing (S n) total rel); Log (LogProcessing rel)] ++ evs))
    as Hw by (intros; apply extend_extend).
  destruct (endswith name (lit ".py")).
  { destruct (analyze_python_returns fp rel w1) as (r & evs & Hr & Hf & Hs).
    destruct (languages_lookup results "Python" Hd) as [l Hl]; [set_solver|].
    exists evs. split; [done|]. left. exists r, l. split; [|done].
    rewrite (bind_returned _ _ _ _ _ Hr).
    rewrite (bind_returned _ _ _ _ _ (append_result_present _ _ _ _ _ Hl)).
    by rewrite Hw. }
  destruct (endswith name (lit ".js")).
  { destruct (endswith name (lit ".min.js")).
    - exists [Log (LogSkipMinified rel)]. split; [done|].
      rewrite bind_emit. by rewrite Hw.
    - destruct (analyze_javascript_outcome fp rel w1)
        as (evs & Hs & [(r & Hr & Hf)|(e & Hr & _ & He)]).
      + destruct (languages_lookup results "JavaScript" Hd) as [l Hl]; [set_solver|].
        exists evs. split; [done|]. left. exists r, l. split; [|done].
        rewrite (bind_returned _ _ _ _ _ Hr).
        rewrite (bind_returned _ _ _ _ _ (append_result_present _ _ _ _ _ Hl)).
        by rewrite Hw.
      + exists evs. split; [done|]. right. exists e. split; [|done].
        rewrite (bind_raised _ _ _ _ _ Hr). by rewrite Hw. }
  destruct (endswith name (lit ".html")).
  { destruct (analyze_html_returns fp rel w1) as (r & evs & Hr & Hf & Hs).
    destruct (languages_lookup results "HTML" Hd) as [l Hl]; [set_solver|].
    exists evs. split; [done|]. left. exists r, l. split; [|done].
    rewrite (bind_returned _ _ _ _ _ Hr).
    rewrite (bind_returned _ _ _ _ _ (append_result_present _ _ _ _ _ Hl)).
    by rewrite Hw. }
  destruct (endswith name (lit ".css")).
  { destruct (analyze_css_returns fp rel w1) as (r & evs & Hr & Hf & Hs).
    destruct (languages_lookup results "CSS" Hd) as [l Hl]; [set_solver|].
    exists evs. split; [done|]. left. exists r, l. split; [|done].
    rewrite (bind_returned _ _ _ _ _ Hr).
    rewrite (bind_returned _ _ _ _ _ (append_result_present _ _ _ _ _ Hl)).
    by rewrite Hw. }
  destruct (endswith name (lit ".java")).
  { destruct (analyze_java_returns fp rel w1) as (r & evs & Hr & Hf & Hs).
    destruct (languages_lookup results "Java" Hd) as [l Hl]; [set_solver|].
    exists evs. split; [done|]. left. exists r, l. split; [|done].
    rewrite (bind_returned _ _ _ _ _ Hr).
    rewrite (bind_returned _ _ _ _ _ (append_result_present _ _ _ _ _ Hl)).
    by rewrite Hw. }
  exists []. split; [done|]. done.
Qed.

(** ** The loops *)

Lemma for_each_app {A S} (body : A -> S -> M S) (l1 l2 : list A) (s : S) (w : world) :
  for_each body (l1 ++ l2) s w =
    match for_each body l1 s w with
    | (Returned s', w') => for_each body l2 s' w'
    | (Raised e, w') => (Raised e, w')
    end.
Proof.
  revert s w. induction l1 as [|x l1 IH]; intros s w; [done|].
  cbn. unfold bind. destruct (body x s w) as [[s'|e] w']; [apply IH | done].
Qed.

Lemma for_each_map {A B S} (f : A -> B) (body : B -> S -> M S) (l : list A) (s : S)
    (w : world) :
  for_each (fun x => body (f x)) l s w = for_each body (map f l) s w.
Proof.
  revert s w. induction l as [|x l IH]; intros s w; [done|].
  cbn. unfold bind. destruct (body (f x) s w) as [[s'|e] w']; [apply IH | done].
Qed.

(** The two nested loops visit the files of the walk one after the other. *)
Lemma walk_loop_flatten total (wk : list (list str * list str)) st w :
  walk_loop total wk st w = for_each (visit total) (flatten wk) st w.
Proof.
  unfold walk_loop. revert st w. induction wk as [|dir wk IH]; intros st w; [done|].
  cbn [for_each flatten flat_map]. rewrite for_each_app. unfold bind.
  rewrite <- (for_each_map (pair (fst dir)) (visit total)). unfold visit at 1. cbn [fst snd].
  destruct (for_each (process_file total (fst dir)) (snd dir) st w) as [[s'|e] w'];
    [apply IH | done].
Qed.

(** An invariant indexed by the elements already visited. *)
Lemma for_each_invariant {A S} (body : A -> S -> M S)
    (Inv : list A -> S -> world -> Prop) (Exc : list A -> str -> world -> Prop) :
  (forall seen x s w, Inv seen s w ->
     match body x s w with
     | (Returned s', w') => Inv (seen ++ [x]) s' w'
     | (Raised e, w') => Exc (seen ++ [x]) e w'
     end) ->
  forall l seen s w, Inv seen s w ->
    match for_each body l s w with
    | (Returned s', w') => Inv (seen ++ l) s' w'
    | (Raised e, w') => exists more, more `prefix_of` l /\ Exc (seen ++ more) e w'
    end.
Proof.
  intros Hbody. induction l as [|x l IH]; intros seen s w HI.
  - cbn. by rewrite app_nil_r.
  - cbn. unfold bind. specialize (Hbody seen x s w HI).
    destruct (body x s w) as [[s'|e] w'].
    + specialize (IH _ _ _ Hbody).
      destruct (for_each body l s' w') as [[s''|e] w''].
      * by rewrite <- app_assoc in IH.
      * destruct IH as (more & Hp & HE). exists (x :: more).
        split; [by apply prefix_cons|]. by rewrite <- app_assoc in HE.
    + exists [x]. split; [apply prefix_cons, prefix_nil | done].
Qed.

Lemma sources_snoc_config seen (x : list str * str) :
  is_config (snd x) = true -> sources (seen ++ [x]) = sources seen.
Proof.
  intros H. unfold sources. rewrite filter_app, filter_cons_False, filter_nil, app_nil_r;
    [done | congruence].
Qed.

Lemma sources_snoc_source seen (x : list str * str) :
  is_config (snd x) = false -> sources (seen ++ [x]) = sources seen ++ [x].
Proof.
  intros H. unfold sources. by rewrite filter_app, filter_cons_True, filter_nil.
Qed.

Lemma dispatched_snoc_eq lang seen (x : list str * str) :
  language_of (snd x) = Some lang -> dispatched lang (seen ++ [x]) = dispatched lang seen ++ [x].
Proof.
  intros H. unfold dispatched. by rewrite filter_app, filter_cons_True, filter_nil.
Qed.

Lemma dispatched_snoc_ne lang seen (x : list str * str) :
  language_of (snd x) <> Some lang -> dispatched lang (seen ++ [x]) = dispatched lang seen.
Proof.
  intros H. unfold dispatched.
  by rewrite filter_app, filter_cons_False, filter_nil, app_nil_r.
Qed.

Lemma progress_snoc total es (x : list str * str) :
  progress total (es ++ [x]) =
    progress total es ++ [Analyzing (S (length es)) total (rel_path_of (fst x) (snd x))].
Proof.
  unfold progress. rewrite imap_app. cbn. by rewrite Nat.add_0_r.
Qed.

Lemma statuses_extend w evs :
  statuses (trace (extend w evs)) = statuses (trace w) ++ statuses evs.
Proof. apply statuses_app. Qed.

Lemma language_of_config_none file : is_config file = true -> language_of file = None.
Proof. intros H. unfold language_of. by rewrite H. Qed.

(** The loop body keeps the invariant of the walk. *)
Lemma visit_invariant w0 total seen x st w :
  walk_invariant w0 total seen st w ->
  match visit total x st w with
  | (Returned st', w') => walk_invariant w0 total (seen ++ [x]) st' w'
  | (Raised e, w') => walk_interrupted w0 total (seen ++ [x]) e w'
  end.
Proof.
  destruct st as [results n], x as [root file].
  intros (Hws & Hn & Hst & Hd & Hres). cbn [fst snd] in *. unfold visit. cbn [fst snd].
  destruct (is_config file) eqn:Hc.
  - rewrite (process_file_config _ _ _ _ _ _ Hc).
    unfold walk_invariant. cbn [fst snd]. rewrite sources_snoc_config by done.
    rewrite statuses_extend. cbn. rewrite app_nil_r.
    split_and!; try done.
    intros lang l Hl. rewrite dispatched_snoc_ne; [by apply Hres|].
    cbn. by rewrite language_of_config_none.
  - destruct (process_file_source total root file results n w Hc Hd) as (evs & Hs & H).
    cbv zeta in H.
    assert (statuses (trace (extend w
              ([Status (Analyzing (S n) total (rel_path_of root file));
                Log (LogProcessing (rel_path_of root file))] ++ evs))) =
            statuses (trace w0) ++ progress total (sources (seen ++ [(root, file)])))
      as Hst'.
    { rewrite statuses_extend, statuses_app, Hs, Hst. cbn.
      rewrite sources_snoc_source by done. rewrite progress_snoc, <- Hn.
      by rewrite <- app_assoc. }
    destruct (language_of file) as [lang|] eqn:Hlang.
    + destruct H as [(res & l & -> & Hl & Hf)|(e & -> & -> & He)].
      * unfold walk_invariant. cbn [fst snd]. split_and!; try done.
        { rewrite sources_snoc_source by done. rewrite length_app, Hn. cbn. lia. }
        { by rewrite (dom_append _ _ _ _ Hl). }
        intros lang' l'. destruct (decide (lang' = lang)) as [->|Hne].
        -- rewrite lookup_insert_eq. intros [= <-].
           destruct (Hres _ _ Hl) as (rs & -> & Hrs).
           exists (rs ++ [res]). rewrite !map_app, Hrs.
           rewrite dispatched_snoc_eq by done. rewrite map_app. cbn. by rewrite Hf.
        -- rewrite lookup_insert_ne by done. intros Hl'.
           rewrite dispatched_snoc_ne; [by apply Hres|]. cbn. congruence.
      * unfold walk_interrupted. split_and!; try done. eauto.
    + rewrite H. unfold walk_invariant. cbn [fst snd]. split_and!; try done.
      { rewrite sources_snoc_source by done. rewrite length_app, Hn. cbn. lia. }
      intros lang l Hl. rewrite dispatched_snoc_ne; [by apply Hres|]. cbn. congruence.
Qed.

Lemma initial_results_dom : dom initial_results = languages.
Proof. by vm_compute. Qed.

Lemma initial_results_lookup lang l : initial_results !! lang = Some l -> l = [].
Proof.
  unfold initial_results. intros H.
  repeat (apply lookup_insert_Some in H as [[_ <-]|[_ H]]; [done|]).
  apply lookup_singleton_Some in H as [_ <-]. done.
Qed.

Lemma walk_invariant_initial w0 total :
  walk_invariant w0 total [] (initial_results, 0) w0.
Proof.
  unfold walk_invariant. cbn [fst snd]. split_and!.
  - done.
  - done.
  - by rewrite app_nil_r.
  - apply initial_results_dom.
  - intros lang l Hl. apply initial_results_lookup in Hl as ->. by exists [].
Qed.

(** The walk, from empty result lists. *)
Lemma walk_loop_spec w0 total (wk : list (list str * list str)) :
  match walk_loop total wk (initial_results, 0) w0 with
  | (Returned st, w) => walk_invariant w0 total (flatten wk) st w
  | (Raised e, w) =>
      exists seen, seen `prefix_of` flatten wk /\ walk_interrupted w0 total seen e w
  end.
Proof.
  rewrite walk_loop_flatten.
  apply (for_each_invariant (visit total) (walk_invariant w0 total)
           (walk_interrupted w0 total) (fun seen x st w => visit_invariant w0 total seen x st w)
           (flatten wk) [] _ _ (walk_invariant_initial w0 total)).
Qed.

(** ** Provisioning the linter configurations *)

Lemma walk_eq root files dirs :
  walk root (Node files dirs) =
    (root, files) :: flat_map (fun d => walk (root ++ [fst d]) (snd d)) dirs.
Proof.
  cbn. f_equal. induction dirs as [|[d sub] dirs IH]; [done|].
  cbn. by rewrite IH.
Qed.

Lemma flatten_app (a b : list (list str * list str)) :
  flatten (a ++ b) = flatten a ++ flatten b.
Proof. unfold flatten. apply flat_map_app. Qed.

Lemma sources_app (a b : list (list str * str)) : sources (a ++ b) = sources a ++ sources b.
Proof. apply filter_app. Qed.

Lemma sources_add_file root n files :
  is_config n = true ->
  sources (map (pair root) (add_file n files)) = sources (map (pair root) files).
Proof.
  intros Hn. unfold add_file. case_bool_decide; [done|].
  rewrite map_app, sources_app. unfold sources at 2. cbn [map].
  rewrite filter_cons_False by (cbn; congruence). by rewrite filter_nil, app_nil_r.
Qed.

Lemma sources_walk_add_file root n files dirs :
  is_config n = true ->
  sources (flatten (walk root (Node (add_file n files) dirs))) =
    sources (flatten (walk root (Node files dirs))).
Proof.
  intros Hn. rewrite !walk_eq. cbn [flatten flat_map fst snd].
  fold (flatten (flat_map (fun d => walk (root ++ [fst d]) (snd d)) dirs)).
  by rewrite !sources_app, sources_add_file.
Qed.

Lemma sources_update_dir root n sfiles sdirs dirs :
  is_config n = true ->
  lookup_dir n dirs = Some (Node sfiles sdirs) ->
  sources (flatten (flat_map (fun d => walk (root ++ [fst d]) (snd d))
                      (update_dir n (Node (add_file n sfiles) sdirs) dirs))) =
    sources (flatten (flat_map (fun d => walk (root ++ [fst d]) (snd d)) dirs)).
Proof.
  intros Hn. induction dirs as [|[d sub] dirs IH]; [done|].
  cbn [lookup_dir update_dir]. case_bool_decide as Hd.
  - intros [= ->]. cbn [flat_map fst snd].
    by rewrite !flatten_app, !sources_app, sources_walk_add_file.
  - intros H. cbn [flat_map fst snd].
    by rewrite !flatten_app, !sources_app, IH.
Qed.

(** Copying one configuration file changes neither the trace nor the
    files that are not configuration files; it fails only on a directory
    of that name inside a directory of that name. *)
Lemma shutil_copy_spec n t tr :
  is_config n = true ->
  exists o t',
    shutil_copy n (mkWorld (Some t) tr) = (o, mkWorld (Some t') tr)
    /\ sources (flatten (walk [] t')) = sources (flatten (walk [] t))
    /\ (no_config_dir t -> o = Returned tt /\ no_config_dir t').
Proof.
  intros Hn. destruct t as [files dirs]. unfold shutil_copy. cbn [workspace trace].
  destruct (lookup_dir n dirs) as [[sfiles sdirs]|] eqn:Hl.
  - destruct (lookup_dir n sdirs) eqn:Hl2.
    + eexists _, _. split; [done|]. split; [done|].
      intros Hfree. specialize (Hfree n Hn). cbn in Hfree. congruence.
    + eexists _, _. split; [done|]. split.
      * rewrite !walk_eq. cbn [flatten flat_map fst snd].
        fold (flatten (flat_map (fun d => walk ([] ++ [fst d]) (snd d)) dirs)).
        fold (flatten (flat_map (fun d => walk ([] ++ [fst d]) (snd d))
                         (update_dir n (Node (add_file n sfiles) sdirs) dirs))).
        rewrite !sources_app. f_equal. by apply sources_update_dir.
      * intros Hfree. specialize (Hfree n Hn). cbn in Hfree. congruence.
  - eexists _, _. split; [done|]. split; [by apply sources_walk_add_file|].
    intros Hfree. split; [done|]. intros m Hm. apply (Hfree m Hm).
Qed.

Lemma provision_spec names t tr :
  Forall (fun n => is_config n = true) names ->
  exists o t',
    for_each
      (fun config_file (_ : unit) =>
         if config_exists config_file then shutil_copy config_file else ret tt)
      names tt (mkWorld (Some t) tr) = (o, mkWorld (Some t') tr)
    /\ sources (flatten (walk [] t')) = sources (flatten (walk [] t))
    /\ (no_config_dir t -> o = Returned tt).
Proof.
  intros Hall. revert t. induction Hall as [|n names Hn Hall IH]; intros t.
  - exists (Returned tt), t. done.
  - cbn [for_each]. unfold bind. destruct (config_exists n).
    + destruct (shutil_copy_spec n t tr Hn) as (o & t1 & -> & Hs & Hfree).
      destruct o as [[]|e].
      * destruct (IH t1) as (o' & t' & -> & Hs' & Hfree').
        exists o', t'. split; [done|]. split; [congruence|].
        intros H. apply Hfree', Hfree, H.
      * exists (Raised e), t1. split; [done|]. split; [done|].
        intros H. by destruct (Hfree H).
    + cbn. apply IH.
Qed.

Lemma config_files_config : Forall (fun n => is_config n = true) config_files.
Proof. unfold config_files. repeat constructor. Qed.

Lemma create_linter_configs_spec t tr :
  exists o t',
    create_linter_configs (mkWorld (Some t) tr) = (o, mkWorld (Some t') tr)
    /\ sources (flatten (walk [] t')) = sources (flatten (walk [] t))
    /\ (no_config_dir t -> o = Returned tt).
Proof. apply provision_spec, config_files_config. Qed.

(** ** The whole run *)

Local Arguments create_linter_configs : simpl never.
Local Arguments walk_loop : simpl never.
Local Arguments count_files : simpl never.
Local Arguments walk : simpl never.

Lemma analyze_repo_clone_failed repo_url e leftover w :
  clone_from repo_url = CloneRaised e leftover ->
  analyze_repo repo_url w =
    (Returned {[ "Error" := [Message e] ]},
     mkWorld (Some leftover)
       (trace w ++ [Log (LogCloning repo_url); Log (LogCloneError e)])).
Proof.
  intros H. unfold analyze_repo, mkdtemp, clone. run_monad. rewrite H. cbn.
  by rewrite <- app_assoc.
Qed.

(** The run after a successful clone, step by step. *)
Lemma analyze_repo_cloned repo_url t w :
  clone_from repo_url = Cloned t ->
  let w0 := cloned_world w repo_url t in
  exists o t',
    create_linter_configs w0 = (o, mkWorld (Some t') (trace w0))
    /\ sources (flatten (walk [] t')) = sources (flatten (walk [] t))
    /\ (no_config_dir t -> o = Returned tt)
    /\ analyze_repo repo_url w =
         match o with
         | Raised e => (Raised e, mkWorld (Some t') (trace w0))
         | Returned _ =>
             match walk_loop (count_files (walk [] t)) (walk [] t')
                     (initial_results, 0) (mkWorld (Some t') (trace w0)) with
             | (Returned st, w') =>
                 (Returned (fst st),
                  mkWorld None (trace w' ++ [Log (LogCleaned temp_dir)]))
             | (Raised e, w') => (Raised e, w')
             end
         end.
Proof.
  intros H w0.
  destruct (create_linter_configs_spec t (trace w0)) as (o & t' & Hc & Hs & Hfree).
  exists o, t'. split; [done|]. split; [done|]. split; [done|].
  unfold analyze_repo, mkdtemp, clone, os_walk, rmtree. run_monad. rewrite H. cbn.
  rewrite <- app_assoc. cbn [app]. fold (cloned_world w repo_url t). fold w0.
  change (mkWorld (Some t) (trace w0)) with w0 in Hc. rewrite Hc.
  destruct o as [[]|e]; [|done].
  cbn. by destruct (walk_loop _ _ _ _) as [[st|e] w'].
Qed.

(** ** Lists of progress messages *)

Lemma prefix_filter {A} (P : A -> Prop) `{!forall x, Decision (P x)} (a b : list A) :
  a `prefix_of` b -> filter P a `prefix_of` filter P b.
Proof. intros [k ->]. rewrite filter_app. by apply prefix_app_r. Qed.

Lemma progress_prefix total (a b : list (list str * str)) :
  a `prefix_of` b -> progress total a `prefix_of` progress total b.
Proof. intros [k ->]. unfold progress. rewrite imap_app. by apply prefix_app_r. Qed.

Lemma dispatched_sources lang es : dispatched lang (sources es) = dispatched lang es.
Proof.
  unfold dispatched, sources. induction es as [|x es IH]; [done|].
  destruct (decide (language_of (snd x) = Some lang)) as [Hl|Hl].
  - rewrite (filter_cons_True _ x es) by (by apply language_of_config in Hl).
    rewrite !filter_cons_True by done. by rewrite IH.
  - destruct (decide (is_config (snd x) = false)).
    + rewrite (filter_cons_True _ x es) by done. by rewrite !filter_cons_False, IH.
    + rewrite (filter_cons_False _ x es) by done. by rewrite filter_cons_False, IH.
Qed.

Lemma dispatched_provisioned lang (a b : list (list str * str)) :
  sources a = sources b -> dispatched lang a = dispatched lang b.
Proof. intros H. by rewrite <- (dispatched_sources lang a), H, dispatched_sources. Qed.

Lemma statuses_cloned w repo_url t :
  statuses (trace (cloned_world w repo_url t)) = statuses (trace w) ++ [CloningComplete].
Proof. unfold cloned_world. cbn [trace]. by rewrite statuses_app. Qed.

(** What a run that cloned its repository returns or raises. *)
Lemma analyze_repo_outcome repo_url t w :
  clone_from repo_url = Cloned t ->
  let total := count_files (walk [] t) in
  let es := flatten (walk [] t) in
  match analyze_repo repo_url w with
  | (Returned r, w') =>
      workspace w' = None
      /\ statuses (trace w') =
           statuses (trace w) ++ CloningComplete :: progress total (sources es)
      /\ dom r = languages
      /\ forall lang l, r !! lang = Some l ->
           exists rs, l = map Result rs
             /\ map file rs = map (fun e => rel_path_of (fst e) (snd e)) (dispatched lang es)
  | (Raised e, w') =>
      (exists t', workspace w' = Some t')
      /\ (exists shown, shown `prefix_of` progress total (sources es)
            /\ statuses (trace w') = statuses (trace w) ++ CloningComplete :: shown)
      /\ (~ no_config_dir t
          \/ exists file_path,
               subprocess_run (eslint_argv file_path) (Some temp_dir) = RunRaised e)
  end.
Proof.
  intros H total es.
  destruct (analyze_repo_cloned repo_url t w H) as (o & t' & Hc & Hs & Hfree & ->).
  cbv zeta in *. fold total. fold es in Hs.
  destruct o as [[]|e].
  - pose proof (walk_loop_spec (mkWorld (Some t') (trace (cloned_world w repo_url t)))
                  total (walk [] t')) as HL.
    destruct (walk_loop _ _ _ _) as [[st|e] w'].
    + destruct st as [r n]. destruct HL as (Hws & Hn & Hst & Hd & Hres).
      cbn [fst snd workspace trace] in *. split_and!.
      * done.
      * rewrite statuses_app, Hst, statuses_cloned, Hs. cbn.
        by rewrite app_nil_r, <- app_assoc.
      * done.
      * intros lang l Hl. destruct (Hres lang l Hl) as (rs & -> & Hrs).
        exists rs. split; [done|]. rewrite Hrs. f_equal. by apply dispatched_provisioned.
    + destruct HL as (seen & Hp & Hws & Hst & He). cbn [workspace trace] in *. split_and!.
      * eauto.
      * exists (progress total (sources seen)). split.
        -- rewrite <- Hs. apply progress_prefix. by apply prefix_filter.
        -- by rewrite Hst, statuses_cloned, <- app_assoc.
      * by right.
  - cbn [workspace trace]. split_and!.
    + eauto.
    + exists []. split; [apply prefix_nil|]. by rewrite statuses_cloned.
    + left. intros Hf. by specialize (Hfree Hf).
Qed.

(** ** The properties of the specification *)

(** C2, at its failing input. When the clone step fails, [analyze_repo]
    returns from inside the [except] branch: the directory made by
    [mkdtemp] still exists when the function returns, with whatever the
    failed clone left in it. *)
Theorem clone_failure_keeps_workspace repo_url e leftover w :
  clone_from repo_url = CloneRaised e leftover ->
  workspace (snd (analyze_repo repo_url w)) = Some leftover.
Proof. intros H. by rewrite (analyze_repo_clone_failed _ _ _ _ H). Qed.

(** C3. When the clone step fails with message [e], the report is exactly
    the mapping from ["Error"] to the one-element list [[e]]; the run sent
    the two log lines of the clone step and nothing else, so that no
    analyzer ran, no tool was invoked and no result was produced. *)
Theorem clone_failure_report repo_url e leftover w :
  clone_from repo_url = CloneRaised e leftover ->
  exists w',
    analyze_repo repo_url w = (Returned {[ "Error" := [Message e] ]}, w')
    /\ dom ({[ "Error" := [Message e] ]} : report) = {[ "Error" ]}
    /\ trace w' = trace w ++ [Log (LogCloning repo_url); Log (LogCloneError e)]
    /\ execs (trace w') = execs (trace w).
Proof.
  intros H. eexists. split; [by apply analyze_repo_clone_failed|].
  split; [by rewrite dom_singleton_L|]. split; [done|].
  cbn [trace]. unfold execs. rewrite omap_app. cbn. by rewrite app_nil_r.
Qed.

Lemma rating_order {A} (errors warnings : nat) (good poor other : A) :
  (if Nat.ltb 5 errors then poor
   else if Nat.eqb errors 0 && Nat.eqb warnings 0 then good else other) =
  (if Nat.eqb errors 0 && Nat.eqb warnings 0 then good
   else if Nat.ltb 5 errors then poor else other).
Proof. destruct (Nat.eqb_spec errors 0) as [->|]; [by destruct warnings | done]. Qed.

(** C4, amended. For a Python file whose two tools complete, the text
    taken from Pylint is its standard output when the exit code is 0 or 1
    and its standard error otherwise; [error_count] is the number of
    occurrences of "error" and of "Error" in that text plus the number of
    lines, empty ones included, of Flake8's standard output stripped of
    leading and trailing white space; [warning_count] is the number of
    occurrences of "warning" and of "Warning"; the rating is "Good" without
    errors and warnings, "Poor" above five errors, "Needs Improvement"
    otherwise. *)
Theorem python_result_counts file_path rel_path pylint flake8 w :
  subprocess_run (pylint_argv file_path) (Some temp_dir) = Completed pylint ->
  subprocess_run (flake8_argv file_path) (Some temp_dir) = Completed flake8 ->
  exists r w',
    analyze_python file_path rel_path w = (Returned r, w')
    /\ let pylint_issues :=
         if (returncode pylint =? 0)%Z || (returncode pylint =? 1)%Z
         then stdout pylint else stderr pylint in
       file r = rel_path
       /\ issues r =
            lit "Pylint Issues:" ++ [10%N] ++ pylint_issues ++ [10; 10]%N
              ++ lit "Flake8 Issues:" ++ [10%N] ++ strip (stdout flake8)
       /\ error_count r =
            occurrences (lit "error") pylint_issues
            + occurrences (lit "Error") pylint_issues
            + length (splitlines (strip (stdout flake8)))
       /\ warning_count r =
            occurrences (lit "warning") pylint_issues
            + occurrences (lit "Warning") pylint_issues
       /\ rating r =
            Some (if Nat.eqb (error_count r) 0 && Nat.eqb (warning_count r) 0
                  then lit "Good"
                  else if Nat.ltb 5 (error_count r) then lit "Poor"
                       else lit "Needs Improvement").
Proof.
  intros H1 H2. eexists _, _. split; [by apply analyze_python_completed|].
  cbv zeta. unfold python_result, in_0_1. cbn [file issues error_count warning_count rating].
  rewrite !count_occurrences by (try done; by vm_compute).
  split_and!; try done. f_equal. apply rating_order.
Qed.

(** C5, amended. A file whose name ends in ".min.js" is counted and
    announced like every file that is not a configuration file (one
    progress message, one "Processing" log line); then a skip log line is
    sent, no tool is invoked and the result lists are left as they were.
    In the report of a run, the list of every language holds one result per
    file dispatched to that language, and no such file is among them. *)
Theorem minified_file_skipped repo_url t w r w' total root file_name results n w1 lang l :
  endswith file_name (lit ".min.js") = true ->
  clone_from repo_url = Cloned t ->
  analyze_repo repo_url w = (Returned r, w') ->
  r !! lang = Some l ->
  process_file total root file_name (results, n) w1 =
    (Returned (results, S n),
     extend w1 [Status (Analyzing (S n) total (rel_path_of root file_name));
                Log (LogProcessing (rel_path_of root file_name));
                Log (LogSkipMinified (rel_path_of root file_name))])
  /\ (exists rs, l = map Result rs
        /\ map file rs =
             map (fun e => rel_path_of (fst e) (snd e)) (dispatched lang (flatten (walk [] t))))
  /\ (root, file_name) ∉ dispatched lang (flatten (walk [] t)).
Proof.
  intros Hm Hc Hr Hl. split; [by apply process_file_minified|].
  pose proof (analyze_repo_outcome repo_url t w Hc) as Ho. rewrite Hr in Ho.
  destruct Ho as (_ & _ & _ & Hres). split; [by apply Hres|].
  unfold dispatched. rewrite list_elem_of_filter. cbn [snd].
  rewrite (language_of_minified _ Hm). by intros [? _].
Qed.

(** C6. A file that bears the name of a linter configuration file, in
    whatever directory of the workspace, only yields a skip log line: the
    counter, the result lists and the tools are left alone. In the report
    of a run, the list of every language holds one result per file
    dispatched to that language, and no such file is among them. *)
Theorem config_file_not_dispatched repo_url t w r w' total root file_name results n w1
    lang l :
  is_config file_name = true ->
  clone_from repo_url = Cloned t ->
  analyze_repo repo_url w = (Returned r, w') ->
  r !! lang = Some l ->
  process_file total root file_name (results, n) w1 =
    (Returned (results, n), extend w1 [Log (LogSkipConfig file_name)])
  /\ (exists rs, l = map Result rs
        /\ map file rs =
             map (fun e => rel_path_of (fst e) (snd e)) (dispatched lang (flatten (walk [] t))))
  /\ (root, file_name) ∉ dispatched lang (flatten (walk [] t)).
Proof.
  intros Hm Hc Hr Hl. split; [by apply process_file_config|].
  pose proof (analyze_repo_outcome repo_url t w Hc) as Ho. rewrite Hr in Ho.
  destruct Ho as (_ & _ & _ & Hres). split; [by apply Hres|].
  unfold dispatched. rewrite list_elem_of_filter. cbn [snd].
  rewrite (language_of_config_none _ Hm). by intros [? _].
Qed.

(** C7, amended. In a run that reaches the walk, the progress messages
    are, in order, those of the files of the checkout that are not
    configuration files, numbered from 1, whether an analyzer takes them or
    not; the denominator of each is the number of files of the checkout
    counted before the configuration files are copied into it. All of them
    are sent when the run returns, a first part of them when it raises. *)
Theorem progress_messages repo_url t w :
  clone_from repo_url = Cloned t ->
  exists shown,
    shown `prefix_of`
      progress (count_files (walk [] t)) (sources (flatten (walk [] t)))
    /\ statuses (trace (snd (analyze_repo repo_url w))) =
         statuses (trace w) ++ CloningComplete :: shown
    /\ forall r, fst (analyze_repo repo_url w) = Returned r ->
         shown = progress (count_files (walk [] t)) (sources (flatten (walk [] t))).
Proof.
  intros Hc. pose proof (analyze_repo_outcome repo_url t w Hc) as Ho. cbv zeta in Ho.
  destruct (analyze_repo repo_url w) as [[r|e] w'].
  - destruct Ho as (_ & Hst & _). eexists. split; [done|]. split; [exact Hst|done].
  - destruct Ho as (_ & (shown & Hp & Hst) & _). exists shown.
    split; [done|]. split; [done|]. intros r [=].
Qed.

(** C8. For a Java file whose tool completes, the text is Checkstyle's
    standard output when the exit code is 0 and its standard error
    otherwise, so with exit code 1 it is the standard error; [error_count]
    is the number of occurrences of "ERROR" in it and [warning_count] that
    of "WARN". Each of the other analyzers, when its own tool completes
    with exit code 0 or 1, takes the standard output of that tool (the
    JavaScript analyzer stripped). Every part depends on the tool of its
    analyzer alone. *)
Theorem java_exit_code_policy file_path rel_path checkstyle pylint flake8 eslint htmlhint
    stylelint w :
  (subprocess_run (checkstyle_argv file_path) None = Completed checkstyle ->
   exists r w',
     analyze_java file_path rel_path w = (Returned r, w')
     /\ file r = rel_path
     /\ issues r =
          (if (returncode checkstyle =? 0)%Z then stdout checkstyle else stderr checkstyle)
     /\ (returncode checkstyle = 1%Z -> issues r = stderr checkstyle)
     /\ error_count r = occurrences (lit "ERROR") (issues r)
     /\ warning_count r = occurrences (lit "WARN") (issues r))
  /\ (subprocess_run (pylint_argv file_path) (Some temp_dir) = Completed pylint ->
      subprocess_run (flake8_argv file_path) (Some temp_dir) = Completed flake8 ->
      in_0_1 (returncode pylint) = true ->
      exists r w',
        analyze_python file_path rel_path w = (Returned r, w')
        /\ issues r =
             lit "Pylint Issues:" ++ [10%N] ++ stdout pylint ++ [10; 10]%N
               ++ lit "Flake8 Issues:" ++ [10%N] ++ strip (stdout flake8))
  /\ (subprocess_run (eslint_argv file_path) (Some temp_dir) = Completed eslint ->
      endswith file_path (lit ".min.js") = false ->
      in_0_1 (returncode eslint) = true ->
      exists r w',
        analyze_javascript file_path rel_path w = (Returned r, w')
        /\ issues r = strip (stdout eslint))
  /\ (subprocess_run (htmlhint_argv file_path) (Some temp_dir) = Completed htmlhint ->
      in_0_1 (returncode htmlhint) = true ->
      exists r w',
        analyze_html file_path rel_path w = (Returned r, w') /\ issues r = stdout htmlhint)
  /\ (subprocess_run (stylelint_argv file_path) (Some temp_dir) = Completed stylelint ->
      in_0_1 (returncode stylelint) = true ->
      exists r w',
        analyze_css file_path rel_path w = (Returned r, w') /\ issues r = stdout stylelint).
Proof.
  split_and!.
  - intros Hj. eexists _, _. split; [by apply analyze_java_completed|].
    unfold simple_result. cbn [file issues error_count warning_count].
    rewrite !count_occurrences by (try done; by vm_compute).
    split_and!; try done. by intros ->.
  - intros Hp Hf Rp. eexists _, _. split; [by apply analyze_python_completed|].
    unfold python_result. cbn [issues]. by rewrite Rp.
  - intros He Hm Re. eexists _, _. split; [by apply analyze_javascript_completed|]. done.
  - intros Hh Rh. eexists _, _. split; [by apply analyze_html_completed|].
    unfold simple_result. cbn [issues]. by rewrite Rh.
  - intros Hs Rs. eexists _, _. split; [by apply analyze_css_completed|].
    unfold simple_result. cbn [issues]. by rewrite Rs.
Qed.

(** C9. After a successful clone, a report that is returned has exactly
    the five languages as keys, so never ["Error"], each with a list; the
    list of a language no file is dispatched to is empty. The run returns
    such a report unless an exception escapes from the copy of the
    configuration files or from the invocation of ESLint. *)
Theorem report_has_five_languages repo_url t w :
  clone_from repo_url = Cloned t ->
  match analyze_repo repo_url w with
  | (Returned r, _) =>
      dom r = {[ "Python"; "JavaScript"; "HTML"; "CSS"; "Java" ]}
      /\ ("Error" ∉ dom r)
      /\ forall lang, lang ∈ languages ->
           exists l, r !! lang = Some l
             /\ (dispatched lang (flatten (walk [] t)) = [] -> l = [])
  | (Raised e, _) =>
      ~ no_config_dir t
      \/ exists file_path,
           subprocess_run (eslint_argv file_path) (Some temp_dir) = RunRaised e
  end.
Proof.
  intros Hc. pose proof (analyze_repo_outcome repo_url t w Hc) as Ho. cbv zeta in Ho.
  destruct (analyze_repo repo_url w) as [[r|e] w'].
  - destruct Ho as (_ & _ & Hd & Hres). split; [done|].
    split; [rewrite Hd; by vm_compute|].
    intros lang Hl. destruct (languages_lookup r lang Hd Hl) as [l Hlook].
    exists l. split; [done|]. intros Hnone.
    destruct (Hres lang l Hlook) as (rs & -> & Hrs). rewrite Hnone in Hrs.
    by destruct rs.
  - by destruct Ho as (_ & _ & Ho).
Qed.

Lemma error_rating_undocumented : lit "Error" ∉ documented_ratings.
Proof.
  unfold documented_ratings. intros Hin.
  repeat (apply elem_of_cons in Hin as [Hin|Hin]; [by vm_compute in Hin|]).
  by apply elem_of_nil in Hin.
Qed.

(** C10. When the invocation of Pylint or of Flake8 raises, the Python
    analyzer returns the substituted result, whose rating is "Error",
    which is none of "Good", "Needs Improvement" and "Poor". *)
Theorem python_failure_rating file_path rel_path e w :
  subprocess_run (pylint_argv file_path) (Some temp_dir) = RunRaised e
  \/ (exists pylint,
        subprocess_run (pylint_argv file_path) (Some temp_dir) = Completed pylint
        /\ subprocess_run (flake8_argv file_path) (Some temp_dir) = RunRaised e) ->
  exists r w',
    analyze_python file_path rel_path w = (Returned r, w')
    /\ file r = rel_path
    /\ issues r = lit "Analysis failed: " ++ e
    /\ error_count r = 1
    /\ warning_count r = 0
    /\ rating r = Some (lit "Error")
    /\ (lit "Error" ∉ documented_ratings).
Proof.
  intros [H|(p & H1 & H2)].
  - eexists _, _. split; [by apply analyze_python_pylint_raised|].
    split_and!; try done. apply error_rating_undocumented.
  - eexists _, _. split; [by eapply analyze_python_flake8_raised|].
    split_and!; try done. apply error_rating_undocumented.
Qed.

(** ** Further properties of the analyzers *)

(** X1. When HTMLHint completes, the text of the HTML result is the
    standard output for exit codes 0 and 1 and the standard error
    otherwise, the errors are the occurrences of the cross mark U+2717 and
    the warnings those of the warning sign, and the result has no rating.
    When Stylelint completes, the same holds of the CSS result with the
    cross mark U+2716. Each part depends on its own tool alone. *)
Theorem html_css_marker_counts file_path rel_path result w :
  (subprocess_run (htmlhint_argv file_path) (Some temp_dir) = Completed result ->
   exists r w',
     analyze_html file_path rel_path w = (Returned r, w')
     /\ file r = rel_path
     /\ issues r =
          (if (returncode result =? 0)%Z || (returncode result =? 1)%Z
           then stdout result else stderr result)
     /\ error_count r = occurrences [10007%N] (issues r)
     /\ warning_count r = occurrences [9888%N] (issues r)
     /\ rating r = None)
  /\ (subprocess_run (stylelint_argv file_path) (Some temp_dir) = Completed result ->
      exists r w',
        analyze_css file_path rel_path w = (Returned r, w')
        /\ file r = rel_path
        /\ issues r =
             (if (returncode result =? 0)%Z || (returncode result =? 1)%Z
              then stdout result else stderr result)
        /\ error_count r = occurrences [10006%N] (issues r)
        /\ warning_count r = occurrences [9888%N] (issues r)
        /\ rating r = None).
Proof.
  split.
  - intros Hh. eexists _, _. split; [by apply analyze_html_completed|].
    unfold simple_result, in_0_1. cbn [file issues error_count warning_count rating].
    by rewrite !count_occurrences.
  - intros Hc. eexists _, _. split; [by apply analyze_css_completed|].
    unfold simple_result, in_0_1. cbn [file issues error_count warning_count rating].
    by rewrite !count_occurrences.
Qed.

(** X2. Each of the HTML, CSS and Java analyzers, when the invocation of
    its own tool raises, returns a result with one error, no warning, the
    text "Analysis failed: " followed by the message of that exception, and
    no rating; the tool was invoked once and the failure was logged. *)
Theorem sibling_analyzers_catch file_path rel_path e w :
  let failure := mkFileResult rel_path (lit "Analysis failed: " ++ e) 1 0 None in
  (subprocess_run (htmlhint_argv file_path) (Some temp_dir) = RunRaised e ->
   analyze_html file_path rel_path w =
     (Returned failure,
      extend w [Log (LogStart "HTML"); Exec (htmlhint_argv file_path) (Some temp_dir);
                Log (LogFailed "HTML" e)]))
  /\ (subprocess_run (stylelint_argv file_path) (Some temp_dir) = RunRaised e ->
      analyze_css file_path rel_path w =
        (Returned failure,
         extend w [Log (LogStart "CSS"); Exec (stylelint_argv file_path) (Some temp_dir);
                   Log (LogFailed "CSS" e)]))
  /\ (subprocess_run (checkstyle_argv file_path) None = RunRaised e ->
      analyze_java file_path rel_path w =
        (Returned failure,
         extend w [Log (LogStart "Java"); Exec (checkstyle_argv file_path) None;
                   Log (LogFailed "Java" e)])).
Proof.
  cbv zeta. split_and!.
  - by apply analyze_html_raised.
  - by apply analyze_css_raised.
  - by apply analyze_java_raised.
Qed.

(** X3. When ESLint completes, the result of the JavaScript analyzer is
    made from the standard output alone: the text is the stripped output,
    the errors are its lines, there are no warnings, and the rating is
    "Good" without lines, "Poor" above five, "Needs Improvement" otherwise.
    So a run of ESLint that prints nothing on its standard output is rated
    "Good" with no error, whatever its exit code and standard error. *)
Theorem eslint_exit_code_ignored file_path rel_path eslint w :
  endswith file_path (lit ".min.js") = false ->
  subprocess_run (eslint_argv file_path) (Some temp_dir) = Completed eslint ->
  exists r w',
    analyze_javascript file_path rel_path w = (Returned r, w')
    /\ file r = rel_path
    /\ issues r = strip (stdout eslint)
    /\ error_count r = length (splitlines (strip (stdout eslint)))
    /\ warning_count r = 0
    /\ rating r =
         Some (if Nat.eqb (error_count r) 0 then lit "Good"
               else if Nat.ltb 5 (error_count r) then lit "Poor"
                    else lit "Needs Improvement")
    /\ (strip (stdout eslint) = [] ->
        error_count r = 0 /\ rating r = Some (lit "Good")).
Proof.
  intros Hm He. eexists _, _. split; [by apply analyze_javascript_completed|].
  unfold eslint_result. cbn [file issues error_count warning_count rating].
  rewrite splitlines_truthy. split_and!; try done.
  - f_equal. by destruct (length (splitlines (strip (stdout eslint)))) as [|[|[|[|[|[|n]]]]]].
  - by intros ->.
Qed.

(** ** Further properties of the run *)

Lemma count_files_flatten (wk : list (list str * list str)) :
  count_files wk = length (flatten wk).
Proof.
  unfold count_files, flatten. induction wk as [|dir wk IH]; [done|].
  cbn. by rewrite length_app, length_map, IH.
Qed.

Lemma progress_within_total total limit (es : list (list str * str)) :
  length es <= limit ->
  Forall (fun m => match m with
                   | Analyzing processed total' _ =>
                       total' = total /\ 1 <= processed <= limit
                   | CloningComplete => False
                   end) (progress total es).
Proof.
  induction es as [|x es IH] using rev_ind; intros Hlen; [constructor|].
  rewrite progress_snoc. rewrite length_app in Hlen. cbn in Hlen.
  apply Forall_app. split; [apply IH; lia|].
  constructor; [|constructor]. split; [done|lia].
Qed.

Lemma dispatched_by_language (es : list (list str * str)) :
  length (dispatched "Python" es) + length (dispatched "JavaScript" es)
  + length (dispatched "HTML" es) + length (dispatched "CSS" es)
  + length (dispatched "Java" es) = length (analyzed es).
Proof.
  unfold dispatched, analyzed. induction es as [|x es IH]; [done|].
  rewrite !filter_cons. destruct (language_of (snd x)) as [lang|] eqn:E.
  - apply language_of_languages in E. unfold languages in E.
    repeat (apply elem_of_union in E as [E|E]);
      apply elem_of_singleton in E; subst lang;
      repeat case_decide; try done; cbn [length]; lia.
  - repeat case_decide; try done.
Qed.

(** X4. After a successful clone the directory is removed exactly when the
    run returns: a report that is returned leaves no workspace behind and
    the last thing the run does is to log the cleanup, while an exception
    leaves the directory where it is. *)
Theorem workspace_removed_on_return repo_url t w :
  clone_from repo_url = Cloned t ->
  match analyze_repo repo_url w with
  | (Returned _, w') =>
      workspace w' = None
      /\ exists before, trace w' = before ++ [Log (LogCleaned temp_dir)]
  | (Raised _, w') => exists t', workspace w' = Some t'
  end.
Proof.
  intros Hc. pose proof (analyze_repo_outcome repo_url t w Hc) as Ho. cbv zeta in Ho.
  destruct (analyze_repo_cloned repo_url t w Hc) as (o & t' & _ & _ & _ & Heq).
  rewrite Heq in *. destruct o as [[]|e].
  - destruct (walk_loop _ _ _ _) as [[st|e] w'].
    + split; [done|]. by eexists.
    + by destruct Ho as (Ho & _).
  - by destruct Ho as (Ho & _).
Qed.

(** X5. In a report returned after a successful clone, the list of each
    language has as many results as files of the checkout are dispatched to
    that language, so that the report holds one result per analyzed file. *)
Theorem report_counts_dispatched repo_url t w r w' :
  clone_from repo_url = Cloned t ->
  analyze_repo repo_url w = (Returned r, w') ->
  exists python javascript html css java,
    r !! "Python" = Some python /\ r !! "JavaScript" = Some javascript
    /\ r !! "HTML" = Some html /\ r !! "CSS" = Some css /\ r !! "Java" = Some java
    /\ length python = length (dispatched "Python" (flatten (walk [] t)))
    /\ length javascript = length (dispatched "JavaScript" (flatten (walk [] t)))
    /\ length html = length (dispatched "HTML" (flatten (walk [] t)))
    /\ length css = length (dispatched "CSS" (flatten (walk [] t)))
    /\ length java = length (dispatched "Java" (flatten (walk [] t)))
    /\ length python + length javascript + length html + length css + length java
       = length (analyzed (flatten (walk [] t))).
Proof.
  intros Hc Hr. pose proof (analyze_repo_outcome repo_url t w Hc) as Ho. rewrite Hr in Ho.
  destruct Ho as (_ & _ & Hd & Hres).
  assert (forall lang, lang ∈ languages ->
            exists l, r !! lang = Some l
              /\ length l = length (dispatched lang (flatten (walk [] t)))) as Hlen.
  { intros lang Hl. destruct (languages_lookup r lang Hd Hl) as [l Hlook].
    exists l. split; [done|]. destruct (Hres lang l Hlook) as (rs & -> & Hrs).
    by rewrite length_map, <- (length_map file), Hrs, length_map. }
  destruct (Hlen "Python") as (lp & Hp & Ep); [set_solver|].
  destruct (Hlen "JavaScript") as (lj & Hj & Ej); [set_solver|].
  destruct (Hlen "HTML") as (lh & Hh & Eh); [set_solver|].
  destruct (Hlen "CSS") as (lc & Hcs & Ec); [set_solver|].
  destruct (Hlen "Java") as (la & Ha & Ea); [set_solver|].
  exists lp, lj, lh, lc, la. split_and!; try done.
  rewrite Ep, Ej, Eh, Ec, Ea. apply dispatched_by_language.
Qed.

(** X6. In every progress message of a run the numerator lies between 1
    and the denominator, which is the number of files of the checkout: the
    files counted in the numerator are files of the checkout. *)
Theorem progress_within_bounds repo_url t w :
  clone_from repo_url = Cloned t ->
  exists shown,
    statuses (trace (snd (analyze_repo repo_url w))) =
      statuses (trace w) ++ CloningComplete :: shown
    /\ Forall (within_total (count_files (walk [] t))) shown.
Proof.
  intros Hc. pose proof (analyze_repo_outcome repo_url t w Hc) as Ho. cbv zeta in Ho.
  assert (Forall (within_total (count_files (walk [] t)))
            (progress (count_files (walk [] t)) (sources (flatten (walk [] t)))))
    as Hall.
  { apply progress_within_total. rewrite count_files_flatten. apply length_filter. }
  destruct (analyze_repo repo_url w) as [[r|e] w'].
  - destruct Ho as (_ & Hst & _). eexists. split; [exact Hst | exact Hall].
  - destruct Ho as (_ & (shown & [k Hp] & Hst) & _). exists shown. split; [done|].
    rewrite Hp in Hall. by apply Forall_app in Hall as [Hall _].
Qed.

(** ** Further properties of the provisioning *)

Lemma add_file_spec n files :
  exists added,
    add_file n files = files ++ added
    /\ n ∈ files ++ added
    /\ (forall m, m ∈ added -> m = n /\ n ∉ files).
Proof.
  unfold add_file. case_bool_decide as Hin.
  - exists []. rewrite app_nil_r. split; [done|]. split; [done|].
    intros m Hm. by apply elem_of_nil in Hm.
  - exists [n]. split; [done|]. split; [apply elem_of_app; right; by apply list_elem_of_singleton|].
    intros m Hm. apply list_elem_of_singleton in Hm. by subst.
Qed.

Lemma shutil_copy_top n files dirs tr :
  lookup_dir n dirs = None ->
  shutil_copy n (mkWorld (Some (Node files dirs)) tr) =
    (Returned tt, mkWorld (Some (Node (add_file n files) dirs)) tr).
Proof. intros H. unfold shutil_copy. cbn [workspace trace]. by rewrite H. Qed.

(** Copying the configuration files into a checkout with no directory of
    their names: new names are appended to the files of the top, nothing
    else moves. *)
Lemma provision_adds names files dirs tr :
  Forall (fun n => is_config n = true) names ->
  no_config_dir (Node files dirs) ->
  exists added,
    for_each
      (fun config_file (_ : unit) =>
         if config_exists config_file then shutil_copy config_file else ret tt)
      names tt (mkWorld (Some (Node files dirs)) tr) =
      (Returned tt, mkWorld (Some (Node (files ++ added) dirs)) tr)
    /\ (forall n, n ∈ added -> n ∈ names /\ config_exists n = true /\ n ∉ files)
    /\ (forall n, n ∈ names -> config_exists n = true -> n ∈ files ++ added).
Proof.
  intros Hall Hfree. revert files Hfree.
  induction Hall as [|n names Hn Hall IH]; intros files Hfree.
  - exists []. rewrite app_nil_r. split; [done|].
    split; intros n Hn; by apply elem_of_nil in Hn.
  - cbn [for_each]. unfold bind. destruct (config_exists n) eqn:Hex.
    + rewrite shutil_copy_top by (apply (Hfree n Hn)).
      destruct (add_file_spec n files) as (a1 & -> & Hin1 & Hnew1).
      destruct (IH (files ++ a1)) as (a2 & -> & Hnew2 & Hin2).
      { intros m Hm. apply (Hfree m Hm). }
      exists (a1 ++ a2). rewrite app_assoc. split; [done|]. split.
      * intros m Hm. apply elem_of_app in Hm as [Hm|Hm].
        -- destruct (Hnew1 m Hm) as [-> Hnot].
           split_and!; [apply elem_of_cons; by left|done|done].
        -- destruct (Hnew2 m Hm) as (Hm1 & Hm2 & Hm3).
           split_and!; [apply elem_of_cons; by right|done|].
           intros Hf. apply Hm3, elem_of_app. by left.
      * intros m Hm Hexm. apply elem_of_cons in Hm as [->|Hm].
        -- apply elem_of_app. by left.
        -- by apply Hin2.
    + cbn. destruct (IH files Hfree) as (added & -> & Hnew & Hin).
      exists added. split; [done|]. split.
      * intros m Hm. destruct (Hnew m Hm) as (Hm1 & Hm2 & Hm3).
        split_and!; [apply elem_of_cons; by right|done|done].
      * intros m Hm Hexm. apply elem_of_cons in Hm as [->|Hm]; [congruence|].
        by apply Hin.
Qed.

Lemma is_config_elem n : is_config n = true <-> n ∈ config_files.
Proof. unfold is_config. apply bool_decide_eq_true. Qed.

(** X7. When provisioning returns on a checkout with no directory named
    like a configuration file, the trace, the directories and the names of
    the files already there are as before (a file of the checkout that
    bears the name of a shipped configuration file is overwritten, its name
    stays), the names added at the top are exactly the shipped
    configuration files the checkout lacked, and every shipped
    configuration file is at the top of the workspace. *)
Theorem provisioning_adds_missing_configs files dirs tr w' :
  no_config_dir (Node files dirs) ->
  create_linter_configs (mkWorld (Some (Node files dirs)) tr) = (Returned tt, w') ->
  exists added,
    w' = mkWorld (Some (Node (files ++ added) dirs)) tr
    /\ (forall n, n ∈ added ->
          is_config n = true /\ config_exists n = true /\ n ∉ files)
    /\ (forall n, is_config n = true -> config_exists n = true -> n ∈ files ++ added).
Proof.
  intros Hfree Hret.
  destruct (provision_adds config_files files dirs tr config_files_config Hfree)
    as (added & Hrun & Hnew & Hin).
  unfold create_linter_configs in Hret. rewrite Hrun in Hret. injection Hret as <-.
  exists added. split; [done|]. split.
  - intros n Hn. destruct (Hnew n Hn) as (H1 & H2 & H3).
    split_and!; [by apply is_config_elem|done|done].
  - intros n Hn. apply Hin. by apply is_config_elem.
Qed.

(** ** The path handed to the JavaScript analyzer *)

Lemma endswith_after_slash (a f suf : str) :
  47%N ∉ suf -> endswith (a ++ 47%N :: f) suf = endswith f suf.
Proof.
  intros Hslash. apply Bool.eq_iff_eq_true. rewrite !endswith_suffix. split.
  - intros Hs. assert (f `suffix_of` a ++ 47%N :: f) as Hf by (by exists (a ++ [47%N]); rewrite <- app_assoc).
    destruct (suffix_weak_total _ _ _ Hs Hf) as [H|[k Hk]]; [done|].
    destruct Hs as [k' Hk']. rewrite Hk, app_assoc in Hk'.
    replace (a ++ 47%N :: f) with ((a ++ [47%N]) ++ f) in Hk' by (by rewrite <- app_assoc).
    apply app_inv_tail in Hk'.
    destruct k as [|c k _] using rev_ind; [by rewrite Hk|].
    rewrite app_assoc in Hk'. apply app_inj_tail in Hk' as [_ <-].
    destruct Hslash. rewrite Hk. apply elem_of_app. left.
    apply elem_of_app. right. by apply list_elem_of_singleton.
  - intros Hs. by apply suffix_app_r, suffix_cons_r.
Qed.

Lemma endswith_path_join (a f suf : str) :
  47%N ∉ suf -> endswith (path_join a f) suf = endswith f suf.
Proof.
  intros Hslash. unfold path_join.
  destruct (startswith f (lit "/")); [done|].
  destruct (bool_decide (a = [])) eqn:Ha.
  { apply bool_decide_eq_true in Ha. by subst. }
  cbn [orb]. destruct (endswith a (lit "/")) eqn:He.
  - apply endswith_suffix in He as [k ->]. rewrite <- app_assoc.
    by apply endswith_after_slash.
  - by apply endswith_after_slash.
Qed.

Lemma no_slash_in_min_js : 47%N ∉ lit ".min.js".
Proof.
  intros Hin. vm_compute in Hin.
  repeat (apply elem_of_cons in Hin as [Hin|Hin]; [done|]).
  by apply elem_of_nil in Hin.
Qed.

(** X9. The path the orchestrator hands to an analyzer ends in ".min.js"
    exactly when the file name does. So the JavaScript analyzer is never
    called on such a path: for a file dispatched to JavaScript, ESLint is
    invoked on its path right after the "Processing" log line, and the
    analyzer's own branch for minified files is not taken. *)
Theorem javascript_dispatch_invokes_eslint total root file_name results n w :
  language_of file_name = Some "JavaScript" ->
  endswith (file_path_of root file_name) (lit ".min.js") = false
  /\ exists evs,
       trace (snd (process_file total root file_name (results, n) w)) =
         trace w
           ++ [Status (Analyzing (S n) total (rel_path_of root file_name));
               Log (LogProcessing (rel_path_of root file_name));
               Exec (eslint_argv (file_path_of root file_name)) (Some temp_dir)]
           ++ evs.
Proof.
  intros Hl. unfold language_of in Hl.
  destruct (is_config file_name) eqn:Hc; [done|].
  destruct (endswith file_name (lit ".py")) eqn:Hpy; [done|].
  destruct (endswith file_name (lit ".js")) eqn:Hjs.
  2: { repeat (case_match; try done). }
  destruct (endswith file_name (lit ".min.js")) eqn:Hm; [done|].
  assert (endswith (file_path_of root file_name) (lit ".min.js") = false) as Hfp.
  { unfold file_path_of. by rewrite endswith_path_join by apply no_slash_in_min_js. }
  split; [done|].
  unfold process_file. rewrite Hc, Hpy, Hjs, Hm.
  unfold status_callback, log_callback. rewrite !bind_emit, extend_extend. cbn [app].
  unfold bind, analyze_javascript. rewrite Hfp. unfold bind, run, emit. cbn.
  destruct (subprocess_run _ _) as [p|e]; cbn.
  - destruct (append_result _ _ _ _) as [[res|e] w'] eqn:Ha.
    + unfold append_result in Ha. destruct (results !! "JavaScript"); cbn in Ha.
      * injection Ha as _ <-. cbn. eexists. by rewrite <- !app_assoc.
      * done.
    + unfold append_result in Ha. destruct (results !! "JavaScript"); cbn in Ha.
      * done.
      * injection Ha as _ <-. cbn. eexists. by rewrite <- !app_assoc.
  - exists []. by rewrite <- !app_assoc.
Qed.

(** ** [analyse.py] *)

(** A branch of the loop of [analyse.py] always appends one result for its
    file. *)
Lemma analyse_branch_returns lang argv cwd result_of rel_path (results : report) l w :
  results !! lang = Some l ->
  (forall p, file (result_of p) = rel_path) ->
  exists res evs,
    analyse_branch lang argv cwd result_of rel_path results w =
      (Returned (<[lang := l ++ [Result res]]> results), extend w evs)
    /\ file res = rel_path /\ statuses evs = []
    /\ match subprocess_run argv cwd with
       | Completed p => res = result_of p
       | RunRaised e => res = failure_result rel_path e None
       end.
Proof.
  intros Hl Hfile. unfold analyse_branch, run, append_result. rewrite Hl. run_monad.
  destruct (subprocess_run argv cwd) as [p|e]; cbn.
  - exists (result_of p). eexists. split; [|split; [apply Hfile|split; [|done]]].
    + unfold extend. cbn. by rewrite <- !app_assoc.
    + done.
  - exists (failure_result rel_path e None). eexists. split; [|split; [done|split; [|done]]].
    + unfold extend. cbn. by rewrite <- !app_assoc.
    + done.
Qed.

Lemma analyse_language_of_languages file_name lang :
  analyse_language_of file_name = Some lang -> lang ∈ languages.
Proof.
  unfold analyse_language_of, languages.
  repeat (case_match; try done); intros [= <-]; set_solver.
Qed.

(** The body of the loop of [analyse.py] does not raise once the checkout
    has a file. *)
Lemma analyse_process_file_spec total root name results n w :
  total <> 0 ->
  dom results = languages ->
  exists evs, statuses evs = [] /\
    let rel := rel_path_of root name in
    let w' := extend w ([Status (Analyzing (S n) total rel); Log (LogProcessing rel)] ++ evs) in
    match analyse_language_of name with
    | Some lang =>
        exists res l,
          analyse_process_file total root name (results, n) w =
            (Returned (<[lang := l ++ [Result res]]> results, S n), w')
          /\ results !! lang = Some l /\ file res = rel
    | None =>
        analyse_process_file total root name (results, n) w = (Returned (results, S n), w')
    end.
Proof.
  intros Ht Hd. cbv zeta. unfold analyse_process_file, analyse_language_of.
  apply Nat.eqb_neq in Ht. rewrite Ht.
  set (rel := rel_path_of root name). set (fp := file_path_of root name).
  unfold status_callback, log_callback.
  change ((ret tt ;; emit (Status (Analyzing (S n) total rel)) ;;
           emit (Log (LogProcessing rel)) ;; ?k) w)
    with ((emit (Status (Analyzing (S n) total rel)) ;;
           emit (Log (LogProcessing rel)) ;; k) w).
  rewrite !bind_emit, extend_extend. cbn [app].
  set (w1 := extend w [Status (Analyzing (S n) total rel); Log (LogProcessing rel)]).
  assert (forall evs, extend w1 evs =
            extend w ([Status (Analyzing (S n) total rel); Log (LogProcessing rel)] ++ evs))
    as Hw by (intros; apply extend_extend).
  destruct (endswith name (lit ".py")).
  { destruct (languages_lookup results "Python" Hd) as [l Hl]; [set_solver|].
    destruct (analyse_branch_returns "Python" (pylint_argv fp) (Some temp_dir)
                (analyse_python_result rel) rel results l w1 Hl)
      as (res & evs & Hr & Hf & Hs & _); [done|].
    exists evs. split; [done|]. exists res, l. split; [|done].
    rewrite (bind_returned _ _ _ _ _ Hr). by rewrite Hw. }
  destruct (endswith name (lit ".js")).
  { destruct (languages_lookup results "JavaScript" Hd) as [l Hl]; [set_solver|].
    destruct (analyse_branch_returns "JavaScript" (analyse_eslint_argv fp) (Some temp_dir)
                (analyse_javascript_result rel) rel results l w1 Hl)
      as (res & evs & Hr & Hf & Hs & _); [done|].
    exists evs. split; [done|]. exists res, l. split; [|done].
    rewrite (bind_returned _ _ _ _ _ Hr). by rewrite Hw. }
  destruct (endswith name (lit ".html")).
  { destruct (languages_lookup results "HTML" Hd) as [l Hl]; [set_solver|].
    destruct (analyse_branch_returns "HTML" (htmlhint_argv fp) (Some temp_dir)
                (analyse_html_result rel) rel results l w1 Hl)
      as (res & evs & Hr & Hf & Hs & _); [done|].
    exists evs. split; [done|]. exists res, l. split; [|done].
    rewrite (bind_returned _ _ _ _ _ Hr). by rewrite Hw. }
  destruct (endswith name (lit ".css")).
  { destruct (languages_lookup results "CSS" Hd) as [l Hl]; [set_solver|].
    destruct (analyse_branch_returns "CSS" (stylelint_argv fp) (Some temp_dir)
                (analyse_css_result rel) rel results l w1 Hl)
      as (res & evs & Hr & Hf & Hs & _); [done|].
    exists evs. split; [done|]. exists res, l. split; [|done].
    rewrite (bind_returned _ _ _ _ _ Hr). by rewrite Hw. }
  destruct (endswith name (lit ".java")).
  { destruct (languages_lookup results "Java" Hd) as [l Hl]; [set_solver|].
    destruct (analyse_branch_returns "Java" (checkstyle_argv fp) None
                (analyse_java_result rel) rel results l w1 Hl)
      as (res & evs & Hr & Hf & Hs & _); [done|].
    exists evs. split; [done|]. exists res, l. split; [|done].
    rewrite (bind_returned _ _ _ _ _ Hr). by rewrite Hw. }
  exists []. split; [done|]. done.
Qed.

Lemma analyse_walk_loop_flatten total (wk : list (list str * list str)) st w :
  analyse_walk_loop total wk st w = for_each (analyse_visit total) (flatten wk) st w.
Proof.
  unfold analyse_walk_loop. revert st w.
  induction wk as [|dir wk IH]; intros st w; [done|].
  cbn [for_each flatten flat_map]. rewrite for_each_app. unfold bind.
  rewrite <- (for_each_map (pair (fst dir)) (analyse_visit total)).
  unfold analyse_visit at 1. cbn [fst snd].
  destruct (for_each (analyse_process_file total (fst dir)) (snd dir) st w) as [[s'|e] w'];
    [apply IH | done].
Qed.

Lemma analyse_dispatched_snoc_eq lang seen (x : list str * str) :
  analyse_language_of (snd x) = Some lang ->
  analyse_dispatched lang (seen ++ [x]) = analyse_dispatched lang seen ++ [x].
Proof.
  intros H. unfold analyse_dispatched. by rewrite filter_app, filter_cons_True, filter_nil.
Qed.

Lemma analyse_dispatched_snoc_ne lang seen (x : list str * str) :
  analyse_language_of (snd x) <> Some lang ->
  analyse_dispatched lang (seen ++ [x]) = analyse_dispatched lang seen.
Proof.
  intros H. unfold analyse_dispatched.
  by rewrite filter_app, filter_cons_False, filter_nil, app_nil_r.
Qed.

Lemma analyse_visit_invariant w0 total seen x st w :
  total <> 0 ->
  analyse_invariant w0 total seen st w ->
  match analyse_visit total x st w with
  | (Returned st', w') => analyse_invariant w0 total (seen ++ [x]) st' w'
  | (Raised e, w') => False
  end.
Proof.
  destruct st as [results n], x as [root name].
  intros Ht (Hws & Hn & Hst & Hd & Hres). cbn [fst snd] in *.
  unfold analyse_visit. cbn [fst snd].
  destruct (analyse_process_file_spec total root name results n w Ht Hd) as (evs & Hs & H).
  cbv zeta in H.
  assert (statuses (trace (extend w
            ([Status (Analyzing (S n) total (rel_path_of root name));
              Log (LogProcessing (rel_path_of root name))] ++ evs))) =
          statuses (trace w0) ++ progress total (seen ++ [(root, name)])) as Hst'.
  { rewrite statuses_extend, statuses_app, Hs, Hst. cbn.
    rewrite progress_snoc, <- Hn. by rewrite <- app_assoc. }
  destruct (analyse_language_of name) as [lang|] eqn:Hlang.
  - destruct H as (res & l & -> & Hl & Hf).
    unfold analyse_invariant. cbn [fst snd]. split_and!; try done.
    { rewrite length_app, Hn. cbn. lia. }
    { by rewrite (dom_append _ _ _ _ Hl). }
    intros lang' l'. destruct (decide (lang' = lang)) as [->|Hne].
    + rewrite lookup_insert_eq. intros [= <-].
      destruct (Hres _ _ Hl) as (rs & -> & Hrs).
      exists (rs ++ [res]). rewrite !map_app, Hrs.
      rewrite analyse_dispatched_snoc_eq by done. rewrite map_app. cbn. by rewrite Hf.
    + rewrite lookup_insert_ne by done. intros Hl'.
      rewrite analyse_dispatched_snoc_ne; [by apply Hres|]. cbn. congruence.
  - rewrite H. unfold analyse_invariant. cbn [fst snd]. split_and!; try done.
    { rewrite length_app, Hn. cbn. lia. }
    intros lang l Hl. rewrite analyse_dispatched_snoc_ne; [by apply Hres|]. cbn. congruence.
Qed.

Lemma analyse_invariant_initial w0 total :
  analyse_invariant w0 total [] (initial_results, 0) w0.
Proof.
  unfold analyse_invariant. cbn [fst snd]. split_and!.
  - done.
  - done.
  - by rewrite app_nil_r.
  - apply initial_results_dom.
  - intros lang l Hl. apply initial_results_lookup in Hl as ->. by exists [].
Qed.

(** The loop of [analyse.py] over a checkout that was counted with some
    file returns. *)
Lemma analyse_walk_loop_spec w0 total (wk : list (list str * list str)) :
  total <> 0 ->
  exists st w,
    analyse_walk_loop total wk (initial_results, 0) w0 = (Returned st, w)
    /\ analyse_invariant w0 total (flatten wk) st w.
Proof.
  intros Ht. rewrite analyse_walk_loop_flatten.
  pose proof (for_each_invariant (analyse_visit total) (analyse_invariant w0 total)
                (fun _ _ _ => False)
                (fun seen x st w => analyse_visit_invariant w0 total seen x st w Ht)
                (flatten wk) [] _ _ (analyse_invariant_initial w0 total)) as H.
  destruct (for_each _ _ _ _) as [[st|e] w].
  - by exists st, w.
  - by destruct H as (? & _ & []).
Qed.

(** The first file of a loop over a checkout counted without any file. *)
Lemma analyse_process_file_zero root name st w :
  analyse_process_file 0 root name st w = (Raised (lit "division by zero"), w).
Proof. by destruct st. Qed.

Lemma write_config_spec n files dirs tr :
  exists o t',
    write_config n (mkWorld (Some (Node files dirs)) tr) = (o, mkWorld (Some t') tr)
    /\ (o = Returned tt -> t' = Node (add_file n files) dirs).
Proof.
  unfold write_config. cbn [workspace trace].
  destruct (lookup_dir n dirs); [by eexists (Raised _), _|].
  destruct (open_refused n); [by eexists (Raised _), _|].
  by eexists (Returned tt), _.
Qed.

(** Writing the configuration files: when all the writes return, new names
    were appended to the files of the top and nothing else moved. *)
Lemma analyse_provision_spec names files dirs tr :
  exists o t',
    for_each (fun config_file (_ : unit) => write_config config_file) names tt
      (mkWorld (Some (Node files dirs)) tr) = (o, mkWorld (Some t') tr)
    /\ (o = Returned tt ->
        exists added,
          t' = Node (files ++ added) dirs
          /\ (forall n, n ∈ added -> n ∈ names /\ n ∉ files)
          /\ (forall n, n ∈ names -> n ∈ files ++ added)).
Proof.
  revert files. induction names as [|n names IH]; intros files.
  - exists (Returned tt), (Node files dirs). split; [done|]. intros _.
    exists []. rewrite app_nil_r. split; [done|].
    split; intros n Hn; by apply elem_of_nil in Hn.
  - cbn [for_each]. unfold bind.
    destruct (write_config_spec n files dirs tr) as (o1 & t1 & -> & Ht1).
    destruct o1 as [[]|e].
    + rewrite (Ht1 eq_refl).
      destruct (add_file_spec n files) as (a1 & -> & Hin1 & Hnew1).
      destruct (IH (files ++ a1)) as (o & t' & -> & Hret).
      exists o, t'. split; [done|]. intros Ho.
      destruct (Hret Ho) as (a2 & -> & Hnew2 & Hin2).
      exists (a1 ++ a2). rewrite app_assoc. split; [done|]. split.
      * intros m Hm. apply elem_of_app in Hm as [Hm|Hm].
        -- destruct (Hnew1 m Hm) as [-> Hnot]. split; [apply elem_of_cons; by left|done].
        -- destruct (Hnew2 m Hm) as (Hm1 & Hm3). split; [apply elem_of_cons; by right|].
           intros Hf. apply Hm3, elem_of_app. by left.
      * intros m Hm. apply elem_of_cons in Hm as [->|Hm].
        -- apply elem_of_app. by left.
        -- by apply Hin2.
    + exists (Raised e), t1. split; [done|]. intros [=].
Qed.

Local Arguments analyse_create_linter_configs : simpl never.
Local Arguments analyse_walk_loop : simpl never.

(** The run of [analyse.py] after a successful clone, step by step. *)
Lemma analyse_analyze_repo_cloned repo_url files dirs w :
  clone_from repo_url = Cloned (Node files dirs) ->
  let w0 := cloned_world w repo_url (Node files dirs) in
  exists o t',
    analyse_create_linter_configs w0 = (o, mkWorld (Some t') (trace w0))
    /\ (o = Returned tt ->
        exists added,
          t' = Node (files ++ added) dirs
          /\ (forall n, n ∈ added -> is_config n = true /\ n ∉ files)
          /\ (forall n, is_config n = true -> n ∈ files ++ added))
    /\ analyse_analyze_repo repo_url w =
         match o with
         | Raised e => (Raised e, mkWorld (Some t') (trace w0))
         | Returned _ =>
             match analyse_walk_loop (count_files (walk [] (Node files dirs)))
                     (walk [] t') (initial_results, 0)
                     (mkWorld (Some t') (trace w0)) with
             | (Returned st, w') =>
                 (Returned (fst st),
                  mkWorld None (trace w' ++ [Log (LogCleaned temp_dir)]))
             | (Raised e, w') => (Raised e, w')
             end
         end.
Proof.
  intros H w0.
  destruct (analyse_provision_spec config_files files dirs (trace w0))
    as (o & t' & Hc & Hret).
  exists o, t'. split; [exact Hc|]. split.
  - intros Ho. destruct (Hret Ho) as (added & -> & Hnew & Hin).
    exists added. split; [done|]. split.
    + intros n Hn. destruct (Hnew n Hn). split; [by apply is_config_elem|done].
    + intros n Hn. by apply Hin, is_config_elem.
  - unfold analyse_analyze_repo, mkdtemp, clone, os_walk, rmtree. run_monad. rewrite H. cbn.
    rewrite <- app_assoc. cbn [app]. fold (cloned_world w repo_url (Node files dirs)).
    fold w0. unfold analyse_create_linter_configs.
    change (mkWorld (Some (Node files dirs)) (trace w0)) with w0 in Hc. rewrite Hc.
    destruct o as [[]|e]; [|done].
    cbn. by destruct (analyse_walk_loop _ _ _ _) as [[st|e] w'].
Qed.

Lemma top_file_walk n files dirs :
  n ∈ files -> (([] : list str), n) ∈ flatten (walk [] (Node files dirs)).
Proof.
  intros Hn. rewrite walk_eq. cbn [flatten flat_map fst snd].
  apply elem_of_app. left. apply list_elem_of_fmap. by exists n.
Qed.

Lemma count_files_top files dirs added :
  count_files (walk [] (Node (files ++ added) dirs)) =
    count_files (walk [] (Node files dirs)) + length added.
Proof.
  rewrite !walk_eq. unfold count_files.
  set (rest := flat_map _ dirs). cbn. rewrite length_app. lia.
Qed.

(** A run of [analyse.py] that returns a report after a successful
    clone: the configuration files were written, the checkout was counted
    with a file, the workspace is removed, and the report has one result
    per file of the provisioned workspace with one of the extensions. *)
Lemma analyse_outcome repo_url files dirs w r w' :
  clone_from repo_url = Cloned (Node files dirs) ->
  analyse_analyze_repo repo_url w = (Returned r, w') ->
  exists added,
    (forall n, n ∈ added -> is_config n = true /\ n ∉ files)
    /\ (forall n, is_config n = true -> n ∈ files ++ added)
    /\ count_files (walk [] (Node files dirs)) <> 0
    /\ workspace w' = None
    /\ statuses (trace w') =
         statuses (trace w)
           ++ CloningComplete ::
              progress (count_files (walk [] (Node files dirs)))
                (flatten (walk [] (Node (files ++ added) dirs)))
    /\ dom r = languages
    /\ forall lang l, r !! lang = Some l ->
         exists rs, l = map Result rs
           /\ map file rs =
                map (fun e => rel_path_of (fst e) (snd e))
                  (analyse_dispatched lang (flatten (walk [] (Node (files ++ added) dirs)))).
Proof.
  intros Hc Hr.
  destruct (analyse_analyze_repo_cloned repo_url files dirs w Hc)
    as (o & t' & _ & Hret & Heq).
  cbv zeta in Heq. rewrite Hr in Heq. destruct o as [[]|e]; [|done].
  destruct (Hret eq_refl) as (added & -> & Hnew & Hin).
  exists added. split; [done|]. split; [done|].
  assert (count_files (walk [] (Node files dirs)) <> 0) as Ht.
  { intros Ht. rewrite Ht, analyse_walk_loop_flatten in Heq.
    assert ((([] : list str), lit ".pylintrc")
              ∈ flatten (walk [] (Node (files ++ added) dirs)))
      as Hmem by (apply top_file_walk, Hin; by vm_compute).
    destruct (flatten (walk [] (Node (files ++ added) dirs))) as [|x es].
    { by apply elem_of_nil in Hmem. }
    cbn [for_each] in Heq. unfold bind, analyse_visit in Heq.
    by rewrite analyse_process_file_zero in Heq. }
  split; [done|].
  destruct (analyse_walk_loop_spec
              (mkWorld (Some (Node (files ++ added) dirs))
                 (trace (cloned_world w repo_url (Node files dirs))))
              (count_files (walk [] (Node files dirs)))
              (walk [] (Node (files ++ added) dirs)) Ht)
    as ([r1 n] & w1 & Hloop & Hws & Hn & Hst & Hd & Hres).
  rewrite Hloop in Heq. injection Heq as -> ->.
  cbn [fst snd workspace trace] in *. split_and!; try done.
  rewrite statuses_app, Hst, statuses_cloned. cbn. by rewrite app_nil_r, <- app_assoc.
Qed.

(** X10. [analyze_repo] of [analyse.py] recovers from every failure of a
    tool: once the repository is cloned, its files counted (there is one at
    least) and the four configuration files written, the run returns a
    report with the five languages and removes the workspace, whatever the
    tools do. *)
Theorem analyse_run_recovers repo_url t w w1 :
  clone_from repo_url = Cloned t ->
  analyse_create_linter_configs (cloned_world w repo_url t) = (Returned tt, w1) ->
  count_files (walk [] t) <> 0 ->
  exists r w',
    analyse_analyze_repo repo_url w = (Returned r, w')
    /\ workspace w' = None
    /\ dom r = {[ "Python"; "JavaScript"; "HTML"; "CSS"; "Java" ]}.
Proof.
  destruct t as [files dirs]. intros Hc Hprov Ht.
  destruct (analyse_analyze_repo_cloned repo_url files dirs w Hc)
    as (o & t' & Hprov' & _ & Heq).
  cbv zeta in *. rewrite Hprov in Hprov'. injection Hprov' as <- _.
  destruct (analyse_walk_loop_spec
              (mkWorld (Some t') (trace (cloned_world w repo_url (Node files dirs))))
              (count_files (walk [] (Node files dirs))) (walk [] t') Ht)
    as ([r n] & w2 & Hloop & _ & _ & _ & Hd & _).
  rewrite Hloop in Heq. cbn [fst] in *. eexists _, _. split; [exact Heq|]. done.
Qed.

(** X11. [analyze_repo] of [analyse.py] skips no file: in every report it
    returns, the three configuration files it wrote itself whose names end
    in ".js" have a result in the JavaScript list, like the files of the
    repository. *)
Theorem analyse_config_files_analysed repo_url files dirs w r w' n :
  clone_from repo_url = Cloned (Node files dirs) ->
  analyse_analyze_repo repo_url w = (Returned r, w') ->
  n ∈ [lit "eslintconfig.js"; lit "htmlhint.config.js"; lit "stylelint.config.js"] ->
  exists l res,
    r !! "JavaScript" = Some l
    /\ Result res ∈ l
    /\ file res = n.
Proof.
  intros Hc Hr Hn.
  destruct (analyse_outcome repo_url files dirs w r w' Hc Hr)
    as (added & _ & Hin & _ & _ & _ & Hd & Hres).
  destruct (languages_lookup r "JavaScript" Hd) as [l Hl]; [set_solver|].
  destruct (Hres _ _ Hl) as (rs & -> & Hrs).
  assert (is_config n = true /\ analyse_language_of n = Some "JavaScript") as [Hcfg Hjs].
  { repeat (apply elem_of_cons in Hn as [->|Hn]; [by vm_compute|]).
    by apply elem_of_nil in Hn. }
  assert (n ∈ map file rs) as Hfile.
  { rewrite Hrs. apply list_elem_of_fmap. exists ([], n). split; [done|].
    unfold analyse_dispatched. apply list_elem_of_filter. split; [done|].
    apply top_file_walk. by apply Hin. }
  apply list_elem_of_fmap in Hfile as (res & Hfile & Hres').
  exists (map Result rs), res. split_and!; try done.
  apply list_elem_of_fmap. by exists res.
Qed.

(** X12. In [analyse.py] the files are counted before the configuration
    files are written and every file is counted as processed: when the run
    returns a report for a checkout that lacked one of the configuration
    files at its top, the progress message numbered one more than the
    total was sent. *)
Theorem analyse_progress_overshoots repo_url files dirs w r w' missing :
  clone_from repo_url = Cloned (Node files dirs) ->
  analyse_analyze_repo repo_url w = (Returned r, w') ->
  is_config missing = true ->
  missing ∉ files ->
  let total := count_files (walk [] (Node files dirs)) in
  exists shown rel_path,
    statuses (trace w') = statuses (trace w) ++ CloningComplete :: shown
    /\ total < length shown
    /\ shown !! total = Some (Analyzing (S total) total rel_path).
Proof.
  intros Hc Hr Hcfg Hmiss total.
  destruct (analyse_outcome repo_url files dirs w r w' Hc Hr)
    as (added & Hnew & Hin & _ & _ & Hst & _).
  fold total in Hst.
  set (es := flatten (walk [] (Node (files ++ added) dirs))) in *.
  assert (length es = total + length added) as Hlen.
  { unfold es, total. by rewrite <- count_files_flatten, count_files_top. }
  assert (added <> []) as Hadded.
  { intros ->. rewrite app_nil_r in Hin. by apply Hmiss, Hin. }
  assert (total < length es) as Hlt.
  { rewrite Hlen. destruct added; [done|]. cbn. lia. }
  destruct (lookup_lt_is_Some_2 es total Hlt) as [e He].
  exists (progress total es), (rel_path_of (fst e) (snd e)). split_and!.
  - done.
  - unfold progress. by rewrite length_imap.
  - unfold progress. by rewrite list_lookup_imap, He.
Qed.

Lemma checkout_file_walk e files dirs added :
  e ∈ flatten (walk [] (Node files dirs)) ->
  e ∈ flatten (walk [] (Node (files ++ added) dirs)).
Proof.
  rewrite !walk_eq. cbn [flatten flat_map fst snd]. rewrite !elem_of_app.
  intros [He|He]; [left|by right].
  rewrite map_app. apply elem_of_app. by left.
Qed.

(** X15. [analyze_repo] of [analyse.py] gives a result to every file of
    the repository whose name ends in one of the five extensions, files
    ending in ".min.js" and files named like a configuration file included:
    in every report it returns, the list of the file's language holds a
    result with the relative path of the file. *)
Theorem analyse_every_file_has_result repo_url files dirs w r w' root file_name lang :
  clone_from repo_url = Cloned (Node files dirs) ->
  analyse_analyze_repo repo_url w = (Returned r, w') ->
  (root, file_name) ∈ flatten (walk [] (Node files dirs)) ->
  analyse_language_of file_name = Some lang ->
  exists l res,
    r !! lang = Some l
    /\ Result res ∈ l
    /\ file res = rel_path_of root file_name.
Proof.
  intros Hc Hr Hin Hlang.
  destruct (analyse_outcome repo_url files dirs w r w' Hc Hr)
    as (added & _ & _ & _ & _ & _ & Hd & Hres).
  destruct (languages_lookup r lang Hd) as [l Hl];
    [by apply (analyse_language_of_languages file_name)|].
  destruct (Hres _ _ Hl) as (rs & -> & Hrs).
  assert (rel_path_of root file_name ∈ map file rs) as Hfile.
  { rewrite Hrs. apply list_elem_of_fmap. exists (root, file_name). split; [done|].
    unfold analyse_dispatched. apply list_elem_of_filter. split; [done|].
    by apply checkout_file_walk. }
  apply list_elem_of_fmap in Hfile as (res & Hfile & Hres').
  exists (map Result rs), res. split_and!; try done.
  apply list_elem_of_fmap. by exists res.
Qed.

End Program.

(** * The properties on concrete runs *)

(** C1, at its failing input. With no tool installed, the invocation of
    ESLint raises and neither JavaScript analyzer catches it, so that the
    exception leaves [analyze_repo] itself; the HTML analyzer, in the same
    environment, returns the substituted result. *)
Theorem javascript_failure_propagates :
  analyze_javascript tools_missing example_tmp
    (lit "/tmp/tmpab12/app.js") (lit "app.js") fresh_world =
    (Raised (lit "[Errno 2] No such file or directory"),
     mkWorld None [Exec (eslint_argv (lit "/tmp/tmpab12/app.js")) (Some example_tmp)])
  /\ fst (analyze_javascript_module tools_missing example_tmp
            (lit "/tmp/tmpab12/app.js") (lit "app.js") fresh_world) =
       Raised (lit "[Errno 2] No such file or directory")
  /\ fst (analyze_repo tools_missing (clone_gives script_checkout) no_env example_cwd
            example_tmp (fun _ => true) example_url fresh_world) =
       Raised (lit "[Errno 2] No such file or directory")
  /\ fst (analyze_html tools_missing example_cwd example_tmp
            (lit "/tmp/tmpab12/index.html") (lit "index.html") fresh_world) =
       Returned (failure_result (lit "index.html")
                   (lit "[Errno 2] No such file or directory") None).
Proof. split_and!; by vm_compute. Qed.

(** The failing clone of the example leaves its directory behind. *)
Lemma clone_failure_keeps_workspace_witness :
  clone_fails example_url = CloneRaised (lit "repository not found") (Node [] [])
  /\ workspace
       (snd (analyze_repo tools_missing clone_fails no_env example_cwd example_tmp
               (fun _ => true) example_url fresh_world)) = Some (Node [] []).
Proof.
  split; [reflexivity|].
  apply (clone_failure_keeps_workspace tools_missing clone_fails no_env example_cwd
           example_tmp (fun _ => true) example_url (lit "repository not found")).
  reflexivity.
Defined.

(** The report of the failing clone of the example. *)
Lemma clone_failure_report_witness :
  clone_fails example_url = CloneRaised (lit "repository not found") (Node [] [])
  /\ exists w',
       analyze_repo tools_missing clone_fails no_env example_cwd example_tmp
         (fun _ => true) example_url fresh_world =
         (Returned {[ "Error" := [Message (lit "repository not found")] ]}, w')
       /\ dom ({[ "Error" := [Message (lit "repository not found")] ]} : report)
          = {[ "Error" ]}
       /\ trace w' =
            trace fresh_world
              ++ [Log (LogCloning example_url);
                  Log (LogCloneError (lit "repository not found"))]
       /\ execs (trace w') = execs (trace fresh_world).
Proof.
  split; [reflexivity|].
  apply (clone_failure_report tools_missing clone_fails no_env example_cwd example_tmp
           (fun _ => true) example_url (lit "repository not found") (Node [] [])).
  reflexivity.
Defined.

(** C4 as stated fails: an empty line between two findings of Flake8 is
    counted by the analyzer, which finds three errors where the output has
    two lines that are not empty (and Pylint's text has no "error"). *)
Lemma python_error_count_counterexample :
  exists r w',
    analyze_python (lint_outputs [] flake8_two_findings) example_tmp
      (lit "/tmp/tmpab12/a.py") (lit "a.py") fresh_world = (Returned r, w')
    /\ error_count r = 3
    /\ occurrences (lit "error") [] + occurrences (lit "Error") []
       + length (nonempty_lines flake8_two_findings) = 2.
Proof. eexists _, _. split_and!; by vm_compute. Qed.

(** The counts for a file with two findings of Flake8 and a silent Pylint. *)
Lemma python_result_counts_witness :
  lint_outputs [] flake8_two_findings (pylint_argv (lit "/tmp/tmpab12/a.py"))
    (Some example_tmp) = Completed (mkCompleted 0 [] [])
  /\ lint_outputs [] flake8_two_findings (flake8_argv (lit "/tmp/tmpab12/a.py"))
       (Some example_tmp) = Completed (mkCompleted 1 flake8_two_findings [])
  /\ exists r w',
       analyze_python (lint_outputs [] flake8_two_findings) example_tmp
         (lit "/tmp/tmpab12/a.py") (lit "a.py") fresh_world = (Returned r, w')
       /\ file r = lit "a.py"
       /\ error_count r = 0 + 0 + length (splitlines (strip flake8_two_findings))
       /\ warning_count r = 0 + 0
       /\ rating r = Some (lit "Needs Improvement").
Proof.
  assert (lint_outputs [] flake8_two_findings (pylint_argv (lit "/tmp/tmpab12/a.py"))
            (Some example_tmp) = Completed (mkCompleted 0 [] [])) as H1 by reflexivity.
  assert (lint_outputs [] flake8_two_findings (flake8_argv (lit "/tmp/tmpab12/a.py"))
            (Some example_tmp) = Completed (mkCompleted 1 flake8_two_findings []))
    as H2 by reflexivity.
  split; [exact H1|]. split; [exact H2|].
  destruct (python_result_counts (lint_outputs [] flake8_two_findings) example_tmp
              (lit "/tmp/tmpab12/a.py") (lit "a.py") _ _ fresh_world H1 H2)
    as (r & w' & Hr & Hfile & _ & He & Hw & Hrating).
  exists r, w'. split; [exact Hr|]. split; [exact Hfile|].
  split; [exact He|]. split; [exact Hw|].
  rewrite Hrating, He, Hw. reflexivity.
Defined.

(** C5 as stated fails: for the one file [x.min.js] of a checkout the run
    sends a progress message and a "Processing" log line before the skip
    log line, and counts the file as processed. *)
Lemma minified_events_counterexample :
  trace (snd (analyze_repo (tools_print 0 [] []) (clone_gives minified_checkout) no_env
                example_cwd example_tmp (fun _ => false) example_url fresh_world)) =
    [Log (LogCloning example_url); Status CloningComplete;
     Status (Analyzing 1 1 (lit "x.min.js"));
     Log (LogProcessing (lit "x.min.js"));
     Log (LogSkipMinified (lit "x.min.js"));
     Log (LogCleaned example_tmp)]
  /\ snd (process_file (tools_print 0 [] []) no_env example_cwd example_tmp 1 []
            (lit "x.min.js") (initial_results, 0) fresh_world)
     <> extend fresh_world [Log (LogSkipMinified (lit "x.min.js"))].
Proof. split; [by vm_compute|]. vm_compute. intros [=]. Qed.

(** The run on a checkout that holds [x.min.js] alone. *)
Lemma minified_file_skipped_witness :
  endswith (lit "x.min.js") (lit ".min.js") = true
  /\ clone_gives minified_checkout example_url = Cloned minified_checkout
  /\ initial_results !! "JavaScript" = Some []
  /\ process_file (tools_print 0 [] []) no_env example_cwd example_tmp 1 []
       (lit "x.min.js") (initial_results, 0) fresh_world =
       (Returned (initial_results, 1),
        extend fresh_world
          [Status (Analyzing 1 1 (rel_path_of [] (lit "x.min.js")));
           Log (LogProcessing (rel_path_of [] (lit "x.min.js")));
           Log (LogSkipMinified (rel_path_of [] (lit "x.min.js")))])
  /\ (([] : list str), lit "x.min.js")
       ∉ dispatched "JavaScript" (flatten (walk [] minified_checkout)).
Proof.
  assert (endswith (lit "x.min.js") (lit ".min.js") = true) as H1 by reflexivity.
  assert (clone_gives minified_checkout example_url = Cloned minified_checkout)
    as H2 by reflexivity.
  assert (analyze_repo (tools_print 0 [] []) (clone_gives minified_checkout) no_env
            example_cwd example_tmp (fun _ => false) example_url fresh_world =
          (Returned initial_results,
           mkWorld None
             [Log (LogCloning example_url); Status CloningComplete;
              Status (Analyzing 1 1 (lit "x.min.js"));
              Log (LogProcessing (lit "x.min.js"));
              Log (LogSkipMinified (lit "x.min.js"));
              Log (LogCleaned example_tmp)])) as H3 by (vm_compute; reflexivity).
  assert (initial_results !! "JavaScript" = Some ([] : list item)) as H4 by reflexivity.
  split; [exact H1|]. split; [exact H2|]. split; [exact H4|].
  destruct (minified_file_skipped _ _ _ _ _ _ _ _ _ _ _ 1 [] _ initial_results 0
              fresh_world _ _ H1 H2 H3 H4) as (Hstep & _ & Hnot).
  split; [exact Hstep | exact Hnot].
Defined.

(** The run on a checkout with [main.py] and [web/eslintconfig.js], no tool
    being installed. *)
Lemma config_file_not_dispatched_witness :
  is_config (lit "eslintconfig.js") = true
  /\ clone_gives config_checkout example_url = Cloned config_checkout
  /\ process_file tools_missing no_env example_cwd example_tmp 2 [lit "web"]
       (lit "eslintconfig.js") (initial_results, 1) fresh_world =
       (Returned (initial_results, 1),
        extend fresh_world [Log (LogSkipConfig (lit "eslintconfig.js"))])
  /\ (exists rs,
        [Result (failure_result (lit "main.py")
                   (lit "[Errno 2] No such file or directory") (Some (lit "Error")))]
          = map Result rs
        /\ map file rs =
             map (fun e => rel_path_of (fst e) (snd e))
               (dispatched "Python" (flatten (walk [] config_checkout))))
  /\ ([lit "web"], lit "eslintconfig.js")
       ∉ dispatched "Python" (flatten (walk [] config_checkout)).
Proof.
  assert (is_config (lit "eslintconfig.js") = true) as H1 by reflexivity.
  assert (clone_gives config_checkout example_url = Cloned config_checkout)
    as H2 by reflexivity.
  assert (analyze_repo tools_missing (clone_gives config_checkout) no_env
            example_cwd example_tmp (fun _ => true) example_url fresh_world =
          (Returned
             (<[ "Python" :=
                   [Result (failure_result (lit "main.py")
                              (lit "[Errno 2] No such file or directory")
                              (Some (lit "Error")))] ]> initial_results),
           snd (analyze_repo tools_missing (clone_gives config_checkout) no_env
                  example_cwd example_tmp (fun _ => true) example_url fresh_world)))
    as H3 by (vm_compute; reflexivity).
  assert ((<[ "Python" :=
                [Result (failure_result (lit "main.py")
                           (lit "[Errno 2] No such file or directory")
                           (Some (lit "Error")))] ]> initial_results) !! "Python" =
          Some [Result (failure_result (lit "main.py")
                          (lit "[Errno 2] No such file or directory")
                          (Some (lit "Error")))]) as H4 by reflexivity.
  split; [exact H1|]. split; [exact H2|].
  exact (config_file_not_dispatched _ _ _ _ _ _ _ _ _ _ _ 2 [lit "web"] _
           initial_results 1 fresh_world _ _ H1 H2 H3 H4).
Defined.

(** C7 as stated fails: for a checkout that holds [README.md] alone the
    one progress message is "Analyzing (1/1): README.md", although the
    workspace holds five files when the walk begins (the four
    configuration files were copied after the count) and although no
    analyzer takes [README.md]. *)
Lemma progress_total_counterexample :
  statuses
    (trace (snd (analyze_repo (tools_print 0 [] []) (clone_gives readme_checkout) no_env
                   example_cwd example_tmp (fun _ => true) example_url fresh_world))) =
    [CloningComplete; Analyzing 1 1 (lit "README.md")]
  /\ workspace
       (snd (create_linter_configs (fun _ => true)
               (cloned_world fresh_world example_url readme_checkout))) =
       Some (Node [lit "README.md"; lit ".pylintrc"; lit "eslintconfig.js";
                   lit "htmlhint.config.js"; lit "stylelint.config.js"] [])
  /\ count_files
       (walk [] (Node [lit "README.md"; lit ".pylintrc"; lit "eslintconfig.js";
                       lit "htmlhint.config.js"; lit "stylelint.config.js"] [])) = 5
  /\ language_of (lit "README.md") = None
  /\ execs
       (trace (snd (analyze_repo (tools_print 0 [] []) (clone_gives readme_checkout)
                      no_env example_cwd example_tmp (fun _ => true) example_url
                      fresh_world))) = [].
Proof. split_and!; by vm_compute. Qed.

(** The progress messages for a checkout that holds [README.md] alone. *)
Lemma progress_messages_witness :
  clone_gives readme_checkout example_url = Cloned readme_checkout
  /\ exists shown,
       shown `prefix_of`
         progress (count_files (walk [] readme_checkout))
           (sources (flatten (walk [] readme_checkout)))
       /\ statuses
            (trace (snd (analyze_repo (tools_print 0 [] []) (clone_gives readme_checkout)
                           no_env example_cwd example_tmp (fun _ => true) example_url
                           fresh_world))) =
            statuses (trace fresh_world) ++ CloningComplete :: shown
       /\ forall r,
            fst (analyze_repo (tools_print 0 [] []) (clone_gives readme_checkout)
                   no_env example_cwd example_tmp (fun _ => true) example_url
                   fresh_world) = Returned r ->
            shown =
              progress (count_files (walk [] readme_checkout))
                (sources (flatten (walk [] readme_checkout))).
Proof.
  split; [reflexivity|].
  apply (progress_messages (tools_print 0 [] []) (clone_gives readme_checkout) no_env
           example_cwd example_tmp (fun _ => true) example_url readme_checkout).
  reflexivity.
Defined.

(** Checkstyle ending with exit code 1 where no other tool is installed:
    the text is its standard error. *)
Lemma java_exit_code_policy_witness :
  checkstyle_only (checkstyle_argv no_env (lit "/tmp/tmpab12/A.java")) None =
    Completed (mkCompleted 1 (lit "Starting audit...") (lit "[ERROR] A.java:1: [WARN]"))
  /\ exists r w',
       analyze_java checkstyle_only no_env (lit "/tmp/tmpab12/A.java") (lit "A.java")
         fresh_world = (Returned r, w')
       /\ issues r = lit "[ERROR] A.java:1: [WARN]"
       /\ error_count r = 1
       /\ warning_count r = 1.
Proof.
  pose (p := mkCompleted 1 (lit "Starting audit...") (lit "[ERROR] A.java:1: [WARN]")).
  assert (checkstyle_only (checkstyle_argv no_env (lit "/tmp/tmpab12/A.java")) None =
          Completed p) as Hrun by reflexivity.
  split; [exact Hrun|].
  destruct (java_exit_code_policy checkstyle_only no_env example_cwd example_tmp
              (lit "/tmp/tmpab12/A.java") (lit "A.java") p p p p p p fresh_world)
    as (Hjava & _).
  destruct (Hjava Hrun) as (r & w' & Hr & _ & _ & Herr & He & Hw).
  exists r, w'. split; [exact Hr|].
  assert (issues r = lit "[ERROR] A.java:1: [WARN]") as Hi by (apply Herr; reflexivity).
  split; [exact Hi|]. rewrite He, Hw, Hi. split; reflexivity.
Defined.

(** The report for a checkout that holds [README.md] alone. *)
Lemma report_has_five_languages_witness :
  clone_gives readme_checkout example_url = Cloned readme_checkout
  /\ match analyze_repo tools_missing (clone_gives readme_checkout) no_env example_cwd
             example_tmp (fun _ => true) example_url fresh_world with
     | (Returned r, _) =>
         dom r = {[ "Python"; "JavaScript"; "HTML"; "CSS"; "Java" ]}
         /\ ("Error" ∉ dom r)
         /\ forall lang, lang ∈ languages ->
              exists l, r !! lang = Some l
                /\ (dispatched lang (flatten (walk [] readme_checkout)) = [] -> l = [])
     | (Raised e, _) =>
         ~ no_config_dir readme_checkout
         \/ exists file_path,
              tools_missing (eslint_argv file_path) (Some example_tmp) = RunRaised e
     end
  /\ exists w',
       analyze_repo tools_missing (clone_gives readme_checkout) no_env example_cwd
         example_tmp (fun _ => true) example_url fresh_world =
         (Returned initial_results, w').
Proof.
  split; [reflexivity|]. split.
  - apply (report_has_five_languages tools_missing (clone_gives readme_checkout) no_env
             example_cwd example_tmp (fun _ => true) example_url readme_checkout).
    reflexivity.
  - eexists. vm_compute. reflexivity.
Defined.

(** The Python analyzer with no tool installed. *)
Lemma python_failure_rating_witness :
  tools_missing (pylint_argv (lit "/tmp/tmpab12/a.py")) (Some example_tmp) =
    RunRaised (lit "[Errno 2] No such file or directory")
  /\ exists r w',
       analyze_python tools_missing example_tmp (lit "/tmp/tmpab12/a.py") (lit "a.py")
         fresh_world = (Returned r, w')
       /\ file r = lit "a.py"
       /\ issues r = lit "Analysis failed: " ++ lit "[Errno 2] No such file or directory"
       /\ error_count r = 1
       /\ warning_count r = 0
       /\ rating r = Some (lit "Error")
       /\ (lit "Error" ∉ documented_ratings).
Proof.
  split; [reflexivity|].
  apply (python_failure_rating tools_missing example_tmp (lit "/tmp/tmpab12/a.py")
           (lit "a.py") (lit "[Errno 2] No such file or directory") fresh_world).
  left. reflexivity.
Defined.
(** * The further properties on concrete runs *)

(** HTMLHint ending with exit code 1, whatever Stylelint does. *)
Lemma html_css_marker_counts_witness :
  tools_print 1 (lit "index.html: ") (lit "warn")
    (htmlhint_argv example_cwd (lit "/tmp/tmpab12/index.html")) (Some example_tmp) =
    Completed (mkCompleted 1 (lit "index.html: ") (lit "warn"))
  /\ exists r w',
       analyze_html (tools_print 1 (lit "index.html: ") (lit "warn")) example_cwd
         example_tmp (lit "/tmp/tmpab12/index.html") (lit "index.html") fresh_world =
         (Returned r, w')
       /\ issues r = lit "index.html: " /\ rating r = None.
Proof.
  pose (p := mkCompleted 1 (lit "index.html: ") (lit "warn")).
  assert (tools_print 1 (lit "index.html: ") (lit "warn")
            (htmlhint_argv example_cwd (lit "/tmp/tmpab12/index.html")) (Some example_tmp) =
          Completed p) as Hrun by reflexivity.
  split; [exact Hrun|].
  destruct (html_css_marker_counts (tools_print 1 (lit "index.html: ") (lit "warn"))
              example_cwd example_tmp (lit "/tmp/tmpab12/index.html") (lit "index.html")
              p fresh_world) as (Hhtml & _).
  destruct (Hhtml Hrun) as (r & w' & Hr & _ & Hi & _ & _ & Hg).
  exists r, w'. split; [exact Hr|]. split; [exact Hi | exact Hg].
Defined.

(** Checkstyle missing, whatever the other tools do. *)
Lemma sibling_analyzers_catch_witness :
  tools_missing (checkstyle_argv no_env (lit "/tmp/tmpab12/A.java")) None =
    RunRaised (lit "[Errno 2] No such file or directory")
  /\ fst (analyze_java tools_missing no_env (lit "/tmp/tmpab12/A.java") (lit "A.java")
            fresh_world) =
       Returned (mkFileResult (lit "A.java")
                   (lit "Analysis failed: " ++ lit "[Errno 2] No such file or directory")
                   1 0 None).
Proof.
  assert (tools_missing (checkstyle_argv no_env (lit "/tmp/tmpab12/A.java"))
            None =
          RunRaised (lit "[Errno 2] No such file or directory")) as Hrun by reflexivity.
  split; [exact Hrun|].
  destruct (sibling_analyzers_catch tools_missing no_env example_cwd example_tmp
              (lit "/tmp/tmpab12/A.java") (lit "A.java")
              (lit "[Errno 2] No such file or directory") fresh_world) as (_ & _ & Hj).
  rewrite (Hj Hrun). reflexivity.
Defined.

(** ESLint failing with exit code 2 and a message on its standard error
    only: the file is rated "Good". *)
Lemma eslint_exit_code_ignored_witness :
  endswith (lit "/tmp/tmpab12/app.js") (lit ".min.js") = false
  /\ tools_print 2 [] (lit "Oops! Something went wrong!")
       (eslint_argv (lit "/tmp/tmpab12/app.js")) (Some example_tmp) =
       Completed (mkCompleted 2 [] (lit "Oops! Something went wrong!"))
  /\ exists r w',
       analyze_javascript (tools_print 2 [] (lit "Oops! Something went wrong!"))
         example_tmp (lit "/tmp/tmpab12/app.js") (lit "app.js") fresh_world =
         (Returned r, w')
       /\ error_count r = 0 /\ rating r = Some (lit "Good").
Proof.
  assert (endswith (lit "/tmp/tmpab12/app.js") (lit ".min.js") = false) as Hm
    by reflexivity.
  assert (tools_print 2 [] (lit "Oops! Something went wrong!")
            (eslint_argv (lit "/tmp/tmpab12/app.js")) (Some example_tmp) =
          Completed (mkCompleted 2 [] (lit "Oops! Something went wrong!"))) as He
    by reflexivity.
  split; [exact Hm|]. split; [exact He|].
  destruct (eslint_exit_code_ignored (tools_print 2 [] (lit "Oops! Something went wrong!"))
              example_tmp (lit "/tmp/tmpab12/app.js") (lit "app.js") _ fresh_world Hm He)
    as (r & w' & Hr & _ & _ & _ & _ & _ & Hgood).
  exists r, w'. split; [exact Hr|]. apply Hgood. reflexivity.
Defined.

(** The workspace after the run on a checkout that holds [README.md]. *)
Lemma workspace_removed_on_return_witness :
  clone_gives readme_checkout example_url = Cloned readme_checkout
  /\ match analyze_repo tools_missing (clone_gives readme_checkout) no_env example_cwd
             example_tmp (fun _ => true) example_url fresh_world with
     | (Returned _, w') =>
         workspace w' = None
         /\ exists before, trace w' = before ++ [Log (LogCleaned example_tmp)]
     | (Raised _, w') => exists t', workspace w' = Some t'
     end.
Proof.
  split; [reflexivity|].
  apply (workspace_removed_on_return tools_missing (clone_gives readme_checkout) no_env
           example_cwd example_tmp (fun _ => true) example_url readme_checkout).
  reflexivity.
Defined.

(** The report for a checkout with [main.py] and [web/eslintconfig.js]. *)
Lemma report_counts_dispatched_witness :
  clone_gives config_checkout example_url = Cloned config_checkout
  /\ exists python javascript html css java : list item,
       length python = 1 /\ length javascript = 0
       /\ length python + length javascript + length html + length css + length java
          = length (analyzed (flatten (walk [] config_checkout))).
Proof.
  assert (clone_gives config_checkout example_url = Cloned config_checkout) as Hc
    by reflexivity.
  split; [exact Hc|].
  destruct (analyze_repo tools_missing (clone_gives config_checkout) no_env example_cwd
              example_tmp (fun _ => true) example_url fresh_world) as [[r|e] w'] eqn:Hr.
  - destruct (report_counts_dispatched tools_missing (clone_gives config_checkout) no_env
                example_cwd example_tmp (fun _ => true) example_url config_checkout
                fresh_world r w' Hc Hr)
      as (lp & lj & lh & lc & la & _ & _ & _ & _ & _ & Ep & Ej & _ & _ & _ & Esum).
    exists lp, lj, lh, lc, la. split; [exact Ep|]. split; [exact Ej | exact Esum].
  - vm_compute in Hr. discriminate Hr.
Defined.

(** The progress messages for a checkout that holds [README.md]. *)
Lemma progress_within_bounds_witness :
  clone_gives readme_checkout example_url = Cloned readme_checkout
  /\ exists shown,
       statuses
         (trace (snd (analyze_repo tools_missing (clone_gives readme_checkout) no_env
                        example_cwd example_tmp (fun _ => true) example_url fresh_world))) =
         statuses (trace fresh_world) ++ CloningComplete :: shown
       /\ Forall (within_total (count_files (walk [] readme_checkout))) shown.
Proof.
  split; [reflexivity|].
  apply (progress_within_bounds tools_missing (clone_gives readme_checkout) no_env
           example_cwd example_tmp (fun _ => true) example_url readme_checkout).
  reflexivity.
Defined.

(** Provisioning a checkout that holds [README.md]. *)
Lemma provisioning_adds_missing_configs_witness :
  no_config_dir readme_checkout
  /\ create_linter_configs (fun _ => true) (mkWorld (Some readme_checkout) []) =
       (Returned tt, mkWorld (Some (Node (lit "README.md" :: config_files) [])) [])
  /\ exists added,
       mkWorld (Some (Node (lit "README.md" :: config_files) [])) [] =
         mkWorld (Some (Node ([lit "README.md"] ++ added) [])) []
       /\ (forall n, n ∈ added ->
             is_config n = true /\ true = true /\ n ∉ [lit "README.md"])
       /\ (forall n, is_config n = true -> true = true -> n ∈ [lit "README.md"] ++ added).
Proof.
  assert (no_config_dir readme_checkout) as Hfree by (intros n _; reflexivity).
  assert (create_linter_configs (fun _ => true) (mkWorld (Some readme_checkout) []) =
          (Returned tt, mkWorld (Some (Node (lit "README.md" :: config_files) [])) []))
    as Hret by (vm_compute; reflexivity).
  split; [exact Hfree|]. split; [exact Hret|].
  exact (provisioning_adds_missing_configs (fun _ => true) [lit "README.md"] [] [] _
           Hfree Hret).
Defined.

(** The file [app.js] at the top of the workspace. *)
Lemma javascript_dispatch_invokes_eslint_witness :
  language_of (lit "app.js") = Some "JavaScript"
  /\ endswith (file_path_of example_tmp [] (lit "app.js")) (lit ".min.js") = false
  /\ exists evs,
       trace (snd (process_file tools_missing no_env example_cwd example_tmp 1 []
                     (lit "app.js") (initial_results, 0) fresh_world)) =
         trace fresh_world
           ++ [Status (Analyzing 1 1 (rel_path_of [] (lit "app.js")));
               Log (LogProcessing (rel_path_of [] (lit "app.js")));
               Exec (eslint_argv (file_path_of example_tmp [] (lit "app.js")))
                 (Some example_tmp)]
           ++ evs.
Proof.
  assert (language_of (lit "app.js") = Some "JavaScript") as Hl by reflexivity.
  split; [exact Hl|].
  exact (javascript_dispatch_invokes_eslint tools_missing no_env example_cwd example_tmp
           1 [] (lit "app.js") initial_results 0 fresh_world Hl).
Defined.

(** The run of [analyse.py] on a checkout that holds [README.md], no tool
    being installed and no write being refused. *)
Lemma analyse_run_recovers_witness :
  clone_gives readme_checkout example_url = Cloned readme_checkout
  /\ analyse_create_linter_configs (fun _ => None)
       (cloned_world fresh_world example_url readme_checkout) =
       (Returned tt,
        mkWorld (Some (Node (lit "README.md" :: config_files) []))
          (trace (cloned_world fresh_world example_url readme_checkout)))
  /\ count_files (walk [] readme_checkout) <> 0
  /\ exists r w',
       analyse_analyze_repo tools_missing (clone_gives readme_checkout) no_env
         example_cwd example_tmp (fun _ => None) example_url fresh_world = (Returned r, w')
       /\ workspace w' = None
       /\ dom r = {[ "Python"; "JavaScript"; "HTML"; "CSS"; "Java" ]}.
Proof.
  assert (clone_gives readme_checkout example_url = Cloned readme_checkout) as Hc
    by reflexivity.
  assert (analyse_create_linter_configs (fun _ => None)
            (cloned_world fresh_world example_url readme_checkout) =
          (Returned tt,
           mkWorld (Some (Node (lit "README.md" :: config_files) []))
             (trace (cloned_world fresh_world example_url readme_checkout))))
    as Hprov by (vm_compute; reflexivity).
  assert (count_files (walk [] readme_checkout) <> 0) as Ht by (vm_compute; lia).
  split; [exact Hc|]. split; [exact Hprov|]. split; [exact Ht|].
  exact (analyse_run_recovers tools_missing (clone_gives readme_checkout) no_env
           example_cwd example_tmp (fun _ => None) example_url readme_checkout
           fresh_world _ Hc Hprov Ht).
Defined.

Lemma analyse_config_files_analysed_witness :
  clone_gives readme_checkout example_url = Cloned readme_checkout
  /\ (lit "eslintconfig.js"
        ∈ [lit "eslintconfig.js"; lit "htmlhint.config.js"; lit "stylelint.config.js"])
  /\ exists r w' l res,
       analyse_analyze_repo tools_missing (clone_gives readme_checkout) no_env
         example_cwd example_tmp (fun _ => None) example_url fresh_world = (Returned r, w')
       /\ r !! "JavaScript" = Some l
       /\ Result res ∈ l
       /\ file res = lit "eslintconfig.js".
Proof.
  assert (clone_gives readme_checkout example_url = Cloned readme_checkout) as Hc
    by reflexivity.
  assert (lit "eslintconfig.js"
            ∈ [lit "eslintconfig.js"; lit "htmlhint.config.js"; lit "stylelint.config.js"])
    as Hn by (apply elem_of_cons; left; reflexivity).
  split; [exact Hc|]. split; [exact Hn|].
  destruct (analyse_analyze_repo tools_missing (clone_gives readme_checkout) no_env
              example_cwd example_tmp (fun _ => None) example_url fresh_world)
    as [[r|e] w'] eqn:Hr.
  - exists r, w'.
    destruct (analyse_config_files_analysed tools_missing (clone_gives readme_checkout)
                no_env example_cwd example_tmp (fun _ => None) example_url
                [lit "README.md"] [] fresh_world r w' (lit "eslintconfig.js") Hc Hr Hn)
      as (l & res & Hl & Hres & Hfile).
    exists l, res. split; [reflexivity|]. split; [exact Hl|].
    split; [exact Hres | exact Hfile].
  - vm_compute in Hr. discriminate Hr.
Defined.

Lemma analyse_progress_overshoots_witness :
  clone_gives readme_checkout example_url = Cloned readme_checkout
  /\ is_config (lit ".pylintrc") = true
  /\ (lit ".pylintrc" ∉ [lit "README.md"])
  /\ exists r w' shown rel_path,
       analyse_analyze_repo tools_missing (clone_gives readme_checkout) no_env
         example_cwd example_tmp (fun _ => None) example_url fresh_world = (Returned r, w')
       /\ statuses (trace w') = statuses (trace fresh_world) ++ CloningComplete :: shown
       /\ 1 < length shown
       /\ shown !! 1 = Some (Analyzing 2 1 rel_path).
Proof.
  assert (clone_gives readme_checkout example_url = Cloned readme_checkout) as Hc
    by reflexivity.
  assert (is_config (lit ".pylintrc") = true) as Hcfg by reflexivity.
  assert (lit ".pylintrc" ∉ [lit "README.md"]) as Hmiss.
  { intros Hin. apply elem_of_cons in Hin as [Hin|Hin].
    - vm_compute in Hin. discriminate Hin.
    - apply elem_of_nil in Hin. exact Hin. }
  split; [exact Hc|]. split; [exact Hcfg|]. split; [exact Hmiss|].
  destruct (analyse_analyze_repo tools_missing (clone_gives readme_checkout) no_env
              example_cwd example_tmp (fun _ => None) example_url fresh_world)
    as [[r|e] w'] eqn:Hr.
  - exists r, w'.
    destruct (analyse_progress_overshoots tools_missing (clone_gives readme_checkout)
                no_env example_cwd example_tmp (fun _ => None) example_url
                [lit "README.md"] [] fresh_world r w' (lit ".pylintrc") Hc Hr Hcfg Hmiss)
      as (shown & rel_path & Hst & Hlen & Hlook).
    exists shown, rel_path. split; [reflexivity|]. split; [exact Hst|].
    split; [exact Hlen | exact Hlook].
  - vm_compute in Hr. discriminate Hr.
Defined.

(** The run of [analyse.py] on a checkout that holds [x.min.js]. *)
Lemma analyse_every_file_has_result_witness :
  clone_gives minified_checkout example_url = Cloned minified_checkout
  /\ (([] : list str), lit "x.min.js") ∈ flatten (walk [] minified_checkout)
  /\ analyse_language_of (lit "x.min.js") = Some "JavaScript"
  /\ exists r w' l res,
       analyse_analyze_repo tools_missing (clone_gives minified_checkout) no_env
         example_cwd example_tmp (fun _ => None) example_url fresh_world = (Returned r, w')
       /\ r !! "JavaScript" = Some l
       /\ Result res ∈ l
       /\ file res = rel_path_of [] (lit "x.min.js").
Proof.
  assert (clone_gives minified_checkout example_url = Cloned minified_checkout) as Hc
    by reflexivity.
  assert ((([] : list str), lit "x.min.js") ∈ flatten (walk [] minified_checkout)) as Hin.
  { apply elem_of_cons. left. reflexivity. }
  assert (analyse_language_of (lit "x.min.js") = Some "JavaScript") as Hl by reflexivity.
  split; [exact Hc|]. split; [exact Hin|]. split; [exact Hl|].
  destruct (analyse_analyze_repo tools_missing (clone_gives minified_checkout) no_env
              example_cwd example_tmp (fun _ => None) example_url fresh_world)
    as [[r|e] w'] eqn:Hr.
  - exists r, w'.
    destruct (analyse_every_file_has_result tools_missing (clone_gives minified_checkout)
                no_env example_cwd example_tmp (fun _ => None) example_url
                [lit "x.min.js"] [] fresh_world r w' [] (lit "x.min.js") "JavaScript"
                Hc Hr Hin Hl)
      as (l & res & Hlk & Hres & Hfile).
    exists l, res. split; [reflexivity|]. split; [exact Hlk|].
    split; [exact Hres | exact Hfile].
  - vm_compute in Hr. discriminate Hr.
Defined.
